(** * libv2ray_support.go: the protected dialer

    A shallow embedding of [libv2ray_support.go] (package [libv2ray]):
    the resolved endpoint with its rotation cursor ([resolved], [NextIP],
    [currentIP]), address resolution with the family reordering
    ([lookupAddr]), the preparation loop ([PrepareDomain]) and the
    protected dial ([getFd], [Dial], [fdConn]).

    Conventions.
    - Go's [(value, error)] results are values of [res]; a Go panic (index
      out of range, close of a nil or closed channel) is the [Panicked]
      outcome, never an error value.
    - [uint8] is a [Z] with its wrap-around modulo 256 written out.
    - Calls that leave the package (resolver, system calls, the injected
      [Protect]) are fields of the records [Resolver] and [Host].
    - What a run does to the outside is recorded as a list of [event]s, in
      program order.
    - [ipLock] makes [NextIP] and [currentIP] atomic; each is one function
      from the endpoint before to the endpoint after. *)

From Stdlib Require Import ZArith Lia String.
From Stdlib.Strings Require Import Byte.
From stdpp Require Import base option list gmap.

Open Scope Z_scope.

(** ** Results *)

(** Go's [error] values: the ones this file creates, and the ones handed up
    from the standard library or the kernel. *)
Inductive error : Type :=
| ErrResolveEmpty (addr : string)   (* "domain %s Failed to resolve" *)
| ErrUnknowNetwork                  (* "unknow network" *)
| ErrPrepare (server : string)      (* "fail to prepare domain %s" *)
| ErrFailToProtect                  (* "fail to protect" *)
| ErrFdInvalid                      (* "fdConn fd invalid" *)
| ErrExternal (code : Z).           (* any error made outside this file *)

(** A [(T, error)] pair of which exactly one side is set. *)
Inductive res (A : Type) : Type :=
| Val (a : A)
| Fail (e : error).
Arguments Val {A} a.
Arguments Fail {A} e.

(** How a call ends: it returns, or it panics. *)
Inductive outcome (A : Type) : Type :=
| Done (a : A)
| Panicked.
Arguments Done {A} a.
Arguments Panicked {A}.

Definition obind {A B} (o : outcome A) (k : A -> outcome B) : outcome B :=
  match o with
  | Done a => k a
  | Panicked => Panicked
  end.

Notation "'let!' x ':=' o 'in' k" := (obind o (fun x => k))
  (at level 10, x name, o at level 100, k at level 200).

(** [len(s)] *)
Definition len {A} (s : list A) : Z := Z.of_nat (length s).

(** [s[i]] for a Go slice and an integer [i]: a panic when [i] is out of
    range. *)
Definition index {A} (s : list A) (i : Z) : outcome A :=
  if i <? 0 then Panicked
  else match s !! Z.to_nat i with
       | Some x => Done x
       | None => Panicked
       end.

(** ** [net.IP] *)

Module NetIP.

(** [type IP []byte] *)
Definition IP : Type := list byte.

Definition IPv4len : nat := 4.
Definition IPv6len : nat := 16.

Definition isZeros (p : list byte) : bool :=
  forallb (fun b => Byte.eqb b x00) p.

(** [p[i] == b], for [i] within [p] *)
Definition byteAt (p : list byte) (i : nat) (b : byte) : bool :=
  match p !! i with
  | Some c => Byte.eqb c b
  | None => false
  end.

(** [net.IP.To4], as the Go standard library defines it: a 4-byte
    address is IPv4, and so is a 16-byte address with the prefix
    [::ffff:0:0/96]; [None] is Go's [nil]. *)
Definition To4 (ip : IP) : option IP :=
  if Nat.eqb (length ip) IPv4len then Some ip
  else if Nat.eqb (length ip) IPv6len
          && isZeros (take 10 ip)
          && byteAt ip 10 xff
          && byteAt ip 11 xff
       then Some (take 4 (drop 12 ip))
       else None.

(** [ip.To4() != nil] *)
Definition isV4 (ip : IP) : bool :=
  match To4 ip with
  | Some _ => true
  | None => false
  end.

End NetIP.
Export NetIP.

(** ** [time.Time] and [time.Duration] *)

Module GoTime.

(** An instant, in nanoseconds since the zero [time.Time]. *)
Definition Time : Type := Z.
(** [time.Duration]: an int64 count of nanoseconds. *)
Definition Duration : Type := Z.

Definition zeroTime : Time := 0.
Definition Second : Duration := 1000000000.
Definition minDuration : Duration := - 2 ^ 63.
Definition maxDuration : Duration := 2 ^ 63 - 1.

(** [t.Sub(u)]: the difference, saturated to what a [Duration] holds. *)
Definition Sub (t u : Time) : Duration :=
  if t - u <? minDuration then minDuration
  else if maxDuration <? t - u then maxDuration
  else t - u.

End GoTime.
Export GoTime.

(** ** The resolved endpoint *)

Definition uint8 (z : Z) : Z := z mod 256.

Record resolved : Type := mkResolved {
  domain : string;
  IPs : list IP;
  Port : Z;
  ipIdx : Z;            (* uint8 *)
  lastSwitched : Time
}.

Definition set_switch (r : resolved) (idx : Z) (t : Time) : resolved :=
  {| domain := domain r; IPs := IPs r; Port := Port r;
     ipIdx := idx; lastSwitched := t |}.

Definition set_ipIdx (r : resolved) (idx : Z) : resolved :=
  set_switch r idx (lastSwitched r).

(** [func (r *resolved) NextIP()], run at the instant [now] that
    [time.Now()] returns.  The last statement logs [r.IPs[r.ipIdx]], so an
    index out of range panics there. *)
Definition NextIP (now : Time) (r : resolved) : outcome resolved :=
  if 1 <? len (IPs r) then
    if Sub now (lastSwitched r) <? Second * 5 then
      Done r                                        (* "switch too quickly" *)
    else
      let r1 := set_switch r (uint8 (ipIdx r + 1)) now in
      let r2 := if uint8 (len (IPs r1)) <=? ipIdx r1
                then set_ipIdx r1 0 else r1 in
      let! _ := index (IPs r2) (ipIdx r2) in
      Done r2
  else
    Done r.

(** [func (r *resolved) currentIP() net.IP].  The [nil] it returns for an
    empty list is the slice of length 0: its callers only copy and print
    it. *)
Definition currentIP (r : resolved) : outcome IP :=
  if 0 <? len (IPs r) then
    index (IPs r) (ipIdx r)
  else
    Done [].

(** ** Address resolution *)

(** [net.IPAddr] *)
Record IPAddr : Type := mkIPAddr {
  addrIP : IP;
  addrZone : string
}.

(** What [d.resolver] and [net.SplitHostPort] answer during one call of
    [lookupAddr]; the context of the lookups carries the 10 second
    timeout, which shows here as an error answer. *)
Record Resolver : Type := mkResolver {
  SplitHostPort : string -> res (string * string);
  LookupPort : string -> res Z;               (* network "tcp" *)
  LookupIPAddr : string -> res (list IPAddr)
}.

(** [IPs[i], IPs[opp] = IPs[opp], IPs[i]]: both operands are read, then
    [IPs[i]] and [IPs[opp]] are written in that order. *)
Definition swap (s : list IP) (i opp : Z) : outcome (list IP) :=
  let! x := index s i in
  let! y := index s opp in
  Done (<[Z.to_nat opp := x]> (<[Z.to_nat i := y]> s)).

(** [for i := len(IPs)/2 - 1; i >= 0; i-- { ... }], with [k = i + 1] the
    number of rounds left; it starts at [k = len(IPs)/2]. *)
Fixpoint revertLoop (k : nat) (s : list IP) : outcome (list IP) :=
  match k with
  | O => Done s
  | S i =>
      let opp := len s - 1 - Z.of_nat i in
      let! s' := swap s (Z.of_nat i) opp in
      revertLoop i s'
  end.

(** Lines 141 to 149 of [lookupAddr]: the guarded reversal.  [&&] is
    short-circuit, so [IPs[0]] and [IPs[len(IPs)-1]] are read only when
    [len(IPs) > 1]. *)
Definition revertIPs (preferIPv6 : bool) (s : list IP) : outcome (list IP) :=
  if negb preferIPv6 && (1 <? len s) then
    let! first := index s 0 in
    if negb (isV4 first) then
      let! last := index s (len s - 1) in
      if isV4 last then revertLoop (Z.to_nat (len s / 2)) s
      else Done s
    else Done s
  else Done s.

(** [func (d *ProtectedDialer) lookupAddr(addr string)], returning a
    [resolved] or an error; of [d] it reads [d.resolver], answering as [rv], and [d.preferIPv6]. *)
Definition lookupAddr (rv : Resolver) (preferIPv6 : bool) (addr : string)
  : outcome (res resolved) :=
  match SplitHostPort rv addr with
  | Fail err => Done (Fail err)
  | Val (host, port) =>
    match LookupPort rv port with
    | Fail err => Done (Fail err)
    | Val portnum =>
      match LookupIPAddr rv host with
      | Fail err => Done (Fail err)
      | Val addrs =>
        if len addrs =? 0 then Done (Fail (ErrResolveEmpty addr))
        else
          let! ips := revertIPs preferIPv6 (map addrIP addrs) in
          Done (Val {| domain := host; IPs := ips; Port := portnum;
                       ipIdx := 0; lastSwitched := zeroTime |})
      end
    end
  end.

(** ** The dialer, the channels and the effects *)

(** A channel value is a reference; [chan struct{}] carries no data, so a
    channel is known by whether it has been closed. *)
Definition chan : Type := nat.

(** [type ProtectedDialer struct]; [None] is [nil] for the channel and for
    [vServer].  The fields [resolver] and [protectSet] are set once by
    [NewPreotectedDialer] and answer through [Resolver] and [Host]. *)
Record ProtectedDialer : Type := mkDialer {
  currentServer : string;
  resolveChan : option chan;
  preferIPv6 : bool;
  vServer : option resolved
}.

(** The memory the dialer's methods act on: the dialer itself, and for
    every channel made so far whether it is closed. *)
Record world : Type := mkWorld {
  dialer : ProtectedDialer;
  chans : gmap chan bool
}.

(** [unix.SockaddrInet6] *)
Record SockaddrInet6 : Type := mkSockaddr {
  saPort : Z;
  saZoneId : Z;
  saAddr : list byte            (* [16]byte *)
}.

Inductive event : Type :=
| EvLookupAddr (addr : string)               (* d.lookupAddr(addr) *)
| EvSetVServer (r : resolved)                (* d.vServer = resolved *)
| EvCloseCh                                  (* select took <-closeCh *)
| EvAfter                                    (* select took <-time.After(2s) *)
| EvCloseChan (c : option chan)              (* close(c) *)
| EvSocket (dom typ proto : Z)               (* unix.Socket *)
| EvProtect (fd : Z)                         (* d.Protect(fd) *)
| EvConnect (fd : Z) (sa : SockaddrInet6)    (* unix.Connect *)
| EvNewFile (fd : Z)                         (* os.NewFile *)
| EvFileConn (fd : Z)                        (* net.FileConn(file) *)
| EvFileClose (fd : Z)                       (* file.Close() *)
| EvClose (fd : Z)                           (* unix.Close(fd) *)
| EvCurrentIP                                (* d.vServer.currentIP() *)
| EvNextIP.                                  (* d.vServer.NextIP() *)

(** A method body: from the memory before to how it ends, the memory
    after and what it did.  A panic keeps the memory, deferred calls still
    run on it. *)
Definition M (A : Type) : Type := world -> outcome A * world * list event.

Definition ret {A} (a : A) : M A := fun w => (Done a, w, []).

Definition bind {A B} (m : M A) (k : A -> M B) : M B := fun w =>
  match m w with
  | (Done a, w1, t1) =>
      match k a w1 with
      | (o, w2, t2) => (o, w2, t1 ++ t2)
      end
  | (Panicked, w1, t1) => (Panicked, w1, t1)
  end.

#[global] Instance M_ret : MRet M := @ret.
#[global] Instance M_bind : MBind M := fun A B k m => bind m k.

Definition emit (e : event) : M unit := fun w => (Done tt, w, [e]).
Definition lift {A} (o : outcome A) : M A := fun w => (o, w, []).
Definition getDialer : M ProtectedDialer := fun w => (Done (dialer w), w, []).
Definition putDialer (d : ProtectedDialer) : M unit := fun w =>
  (Done tt, {| dialer := d; chans := chans w |}, []).

(** [defer cleanup] followed by [body]: [cleanup] runs when [body] has
    returned or panicked; a panic of either is the panic of the call. *)
Definition defer {A} (cleanup : M unit) (body : M A) : M A := fun w =>
  match body w with
  | (o, w1, t1) =>
      match cleanup w1 with
      | (Done _, w2, t2) => (o, w2, t1 ++ t2)
      | (Panicked, w2, t2) => (Panicked, w2, t1 ++ t2)
      end
  end.

(** [make(chan struct{})]: a channel that no one holds yet, open. *)
Definition makeChan : M chan := fun w =>
  let c := fresh (dom (chans w)) in
  (Done c, {| dialer := dialer w; chans := <[c := false]> (chans w) |}, []).

(** [close(c)]: a panic on [nil] and on a closed channel. *)
Definition closeChan (c : option chan) : M unit := fun w =>
  match c with
  | None => (Panicked, w, [EvCloseChan c])
  | Some n =>
      match chans w !! n with
      | Some false =>
          (Done tt, {| dialer := dialer w; chans := <[n := true]> (chans w) |},
           [EvCloseChan c])
      | _ => (Panicked, w, [EvCloseChan c])
      end
  end.

(** Whether [<-c] returns: a receive from [chan struct{}] that nothing is
    ever sent on returns exactly when [c] is closed; on [nil] it never
    does. *)
Definition closed (w : world) (c : option chan) : bool :=
  match c with
  | None => false
  | Some n => match chans w !! n with Some true => true | _ => false end
  end.

Definition setCurrentServer (s : string) (d : ProtectedDialer) :=
  {| currentServer := s; resolveChan := resolveChan d;
     preferIPv6 := preferIPv6 d; vServer := vServer d |}.
Definition setResolveChan (c : option chan) (d : ProtectedDialer) :=
  {| currentServer := currentServer d; resolveChan := c;
     preferIPv6 := preferIPv6 d; vServer := vServer d |}.
Definition setPreferIPv6 (b : bool) (d : ProtectedDialer) :=
  {| currentServer := currentServer d; resolveChan := resolveChan d;
     preferIPv6 := b; vServer := vServer d |}.
Definition setVServer (r : option resolved) (d : ProtectedDialer) :=
  {| currentServer := currentServer d; resolveChan := resolveChan d;
     preferIPv6 := preferIPv6 d; vServer := r |}.

(** [NewPreotectedDialer]: every field of the struct at its zero value. *)
Definition NewPreotectedDialer : ProtectedDialer :=
  {| currentServer := ""; resolveChan := None;
     preferIPv6 := false; vServer := None |}.

(** [func (d *ProtectedDialer) IsVServerReady() bool] *)
Definition IsVServerReady (d : ProtectedDialer) : bool :=
  match vServer d with Some _ => true | None => false end.

(** [func (d *ProtectedDialer) PrepareResolveChan()] *)
Definition PrepareResolveChan : M unit :=
  c ← makeChan;
  d ← getDialer;
  putDialer (setResolveChan (Some c) d).

(** [func (d *ProtectedDialer) ResolveChan() <-chan struct{}] *)
Definition ResolveChan (d : ProtectedDialer) : option chan := resolveChan d.

(** ** Preparation *)

(** The loop of [PrepareDomain].  [maxRetry] starts at 10 and only goes
    down to 0, where the loop returns; [n] counts the rounds made so far.
    [net n] is what the resolver answers in round [n], and [closeCh n]
    tells whether the [select] of round [n] takes the [<-closeCh] case
    rather than the 2 second timer. *)
Fixpoint prepareLoop (net : nat -> Resolver) (closeCh : nat -> bool)
    (domainName : string) (maxRetry n : nat) : M unit :=
  match maxRetry with
  | O => mret tt                               (* "maxRetry reached" *)
  | S maxRetry' =>
      d ← getDialer;
      emit (EvLookupAddr domainName);;
      r ← lift (lookupAddr (net n) (preferIPv6 d) domainName);
      match r with
      | Fail err =>
          if closeCh n then emit EvCloseCh     (* "exit due to core closed" *)
          else emit EvAfter;; prepareLoop net closeCh domainName maxRetry' (S n)
      | Val rs =>
          d ← getDialer;
          putDialer (setVServer (Some rs) d);;
          emit (EvSetVServer rs)
      end
  end.

(** [func (d *ProtectedDialer) PrepareDomain(domainName, closeCh, prefIPv6)].
    The operand of [defer close(d.resolveChan)] is read when the [defer]
    statement runs, before the loop. *)
Definition PrepareDomain (net : nat -> Resolver) (closeCh : nat -> bool)
    (domainName : string) (prefIPv6 : bool) : M unit :=
  d ← getDialer;
  putDialer (setPreferIPv6 prefIPv6 (setCurrentServer domainName d));;
  d ← getDialer;
  defer (closeChan (resolveChan d))
        (prepareLoop net closeCh domainName 10 0).

(** ** The protected connection *)

(** [v2net.Network] *)
Inductive Network : Type :=
| Network_Unknown
| Network_TCP
| Network_UDP
| Network_UNIX.

(** [v2net.Destination], with [NetAddr()] already formatted. *)
Record Destination : Type := mkDestination {
  destNetwork : Network;
  NetAddr : string
}.

(** [net.Conn], known by the descriptor it was made from. *)
Definition Conn : Type := Z.

(** What the system answers during one call of [Dial]. *)
Record Host : Type := mkHost {
  unix_Socket : Z -> Z -> Z -> res Z;
  Protect : Z -> bool;                          (* the injected protectSet *)
  unix_Connect : Z -> SockaddrInet6 -> option error;
  os_NewFile : Z -> bool;                       (* false: it returned nil *)
  net_FileConn : Z -> res Conn;
  time_Now : Time;
  resolver : Resolver
}.

Definition AF_INET6 : Z := 10.
Definition SOCK_STREAM : Z := 1.
Definition SOCK_DGRAM : Z := 2.
Definition IPPROTO_TCP : Z := 6.
Definition IPPROTO_UDP : Z := 17.

(** [func (d *ProtectedDialer) getFd(network v2net.Network) (fd int, err error)] *)
Definition getFd (h : Host) (network : Network) : M (res Z) :=
  match network with
  | Network_TCP =>
      emit (EvSocket AF_INET6 SOCK_STREAM IPPROTO_TCP);;
      mret (unix_Socket h AF_INET6 SOCK_STREAM IPPROTO_TCP)
  | Network_UDP =>
      emit (EvSocket AF_INET6 SOCK_DGRAM IPPROTO_UDP);;
      mret (unix_Socket h AF_INET6 SOCK_DGRAM IPPROTO_UDP)
  | _ => mret (Fail ErrUnknowNetwork)
  end.

(** [copy(sa.Addr[:], ip)] into the zeroed 16 bytes of [sa.Addr]. *)
Definition copyAddr (ip : IP) : list byte :=
  take 16 ip ++ replicate (16 - length ip) x00.

(** [func (d *ProtectedDialer) fdConn(ctx, ip, port, fd) (net.Conn, error)] *)
Definition fdConn (h : Host) (ip : IP) (port : Z) (fd : Z) : M (res Conn) :=
  defer (emit (EvClose fd))
    (emit (EvProtect fd);;
     if negb (Protect h fd) then
       mret (Fail ErrFailToProtect)
     else
       let sa := {| saPort := port; saZoneId := 0; saAddr := copyAddr ip |} in
       emit (EvConnect fd sa);;
       match unix_Connect h fd sa with
       | Some err => mret (Fail err)
       | None =>
           emit (EvNewFile fd);;
           if negb (os_NewFile h fd) then
             mret (Fail ErrFdInvalid)
           else
             defer (emit (EvFileClose fd))
               (emit (EvFileConn fd);;
                mret (net_FileConn h fd))
       end).

(** ** Dial *)

(** [d.vServer], dereferenced: a panic when it is [nil]. *)
Definition derefVServer : M resolved :=
  d ← getDialer;
  lift (match vServer d with Some r => Done r | None => Panicked end).

(** [d.vServer.currentIP()] *)
Definition callCurrentIP : M IP :=
  r ← derefVServer;
  emit EvCurrentIP;;
  lift (currentIP r).

(** [d.vServer.NextIP()]: the endpoint behind the pointer is updated in
    place. *)
Definition callNextIP (h : Host) : M unit :=
  r ← derefVServer;
  emit EvNextIP;;
  r' ← lift (NextIP (time_Now h) r);
  d ← getDialer;
  putDialer (setVServer (Some r') d).

(** Lines 233 to 245 of [Dial]: the connection to the prepared server. *)
Definition dialPrepared (h : Host) (dest : Destination) : M (res Conn) :=
  fd ← getFd h (destNetwork dest);
  match fd with
  | Fail err => mret (Fail err)
  | Val fd =>
      curIP ← callCurrentIP;
      r ← derefVServer;
      conn ← fdConn h curIP (Port r) fd;
      match conn with
      | Fail err => callNextIP h;; mret (Fail err)
      | Val conn => mret (Val conn)            (* "Using Prepared" *)
      end
  end.

(** Lines 248 to 262 of [Dial]: any other destination, resolved anew. *)
Definition dialFresh (h : Host) (dest : Destination) : M (res Conn) :=
  d ← getDialer;
  emit (EvLookupAddr (NetAddr dest));;
  r ← lift (lookupAddr (resolver h) (preferIPv6 d) (NetAddr dest));
  match r with
  | Fail err => mret (Fail err)
  | Val rs =>
      fd ← getFd h (destNetwork dest);
      match fd with
      | Fail err => mret (Fail err)
      | Val fd =>
          ip ← lift (index (IPs rs) 0);
          fdConn h ip (Port rs) fd
      end
  end.

(** Where a call stands: it has ended, or it is parked in a receive
    [<-c].  The rest [k] of a parked call runs on the memory as it is when
    the receive returns, which is no sooner than [c] is closed. *)
Inductive step (A : Type) : Type :=
| Ended (o : outcome A) (w : world) (t : list event)
| Parked (c : option chan) (k : M A).
Arguments Ended {A} o w t.
Arguments Parked {A} c k.

Definition run {A} (m : M A) (w : world) : step A :=
  match m w with
  | (o, w', t) => Ended o w' t
  end.

(** The receive of a parked call returns in [w], if it can. *)
Definition wake {A} (s : step A) (w : world) : option (step A) :=
  match s with
  | Ended _ _ _ => Some s
  | Parked c k => if closed w c then Some (run k w) else None
  end.

(** [func (d *ProtectedDialer) Dial(ctx, src, dest, sockopt) (net.Conn, error)] *)
Definition Dial (h : Host) (dest : Destination) (w : world)
  : step (res Conn) :=
  let Address := NetAddr dest in
  if String.eqb Address (currentServer (dialer w)) then
    match vServer (dialer w) with
    | None =>                                   (* "Dial pending prepare" *)
        Parked (resolveChan (dialer w))
          (d ← getDialer;
           match vServer d with
           | None => mret (Fail (ErrPrepare (currentServer d)))
           | Some _ => dialPrepared h dest
           end)
    | Some _ => run (dialPrepared h dest) w
    end
  else run (dialFresh h dest) w.

(** ** Vocabulary of the statements *)

(** The first, the last entry of the list is an IPv4 address. *)
Definition headIsV4 (s : list IP) : bool :=
  match head s with Some ip => isV4 ip | None => false end.
Definition lastIsV4 (s : list IP) : bool :=
  match last s with Some ip => isV4 ip | None => false end.

(** The guard of the reversal in [lookupAddr], on the list as a whole. *)
Definition reverts (preferIPv6 : bool) (s : list IP) : bool :=
  negb preferIPv6 && (1 <? len s) && negb (headIsV4 s) && lastIsV4 s.

(** The operations on an endpoint, and a sequence of them run in order on
    the one endpoint behind [d.vServer]. *)
Inductive op : Type :=
| OpNextIP (now : Time)
| OpCurrentIP.

Fixpoint runOps (ops : list op) (r : resolved) : outcome resolved :=
  match ops with
  | [] => Done r
  | OpNextIP now :: ops' => let! r' := NextIP now r in runOps ops' r'
  | OpCurrentIP :: ops' => let! _ := currentIP r in runOps ops' r
  end.

(** [NextIP] called at each of [times] in turn. *)
Fixpoint rotations (times : list Time) (r : resolved) : outcome resolved :=
  match times with
  | [] => Done r
  | now :: times' => let! r' := NextIP now r in rotations times' r'
  end.

(** No call of [times] is throttled: each comes 5 seconds or more after
    the switch recorded before it, [last] for the first one. *)
Fixpoint spaced (last : Time) (times : list Time) : Prop :=
  match times with
  | [] => True
  | now :: times' => Second * 5 <= now - last /\ spaced now times'
  end.

(** The cursor after [n] switches from 0, for a list whose length is [m]
    modulo 256. *)
Definition cursorAfter (m : Z) (n : nat) : Z :=
  if m <=? 1 then 0 else Z.of_nat n mod m.

(** How many events of a trace satisfy [p]. *)
Definition calls (p : event -> bool) (t : list event) : nat :=
  length (List.filter p t).

Definition isNextIP (e : event) : bool :=
  match e with EvNextIP => true | _ => false end.
Definition isCloseChan (e : event) : bool :=
  match e with EvCloseChan _ => true | _ => false end.
Definition isSetVServer (e : event) : bool :=
  match e with EvSetVServer _ => true | _ => false end.
Definition isLookupAddr (e : event) : bool :=
  match e with EvLookupAddr _ => true | _ => false end.
Definition isConnect (e : event) : bool :=
  match e with EvConnect _ _ => true | _ => false end.

(** The endpoint in [d.vServer] after the stores of a trace, [v] being
    there before. *)
Fixpoint stored (t : list event) (v : option resolved) : option resolved :=
  match t with
  | [] => v
  | EvSetVServer r :: t' => stored t' (Some r)
  | _ :: t' => stored t' v
  end.

(** The memory with the channel [c] closed and nothing else changed. *)
Definition withClosed (c : chan) (w : world) : world :=
  {| dialer := dialer w; chans := <[c := true]> (chans w) |}.

(** The memory with [r] behind [d.vServer] and nothing else changed. *)
Definition withVServer (r : resolved) (w : world) : world :=
  {| dialer := setVServer (Some r) (dialer w); chans := chans w |}.

Definition isClose (e : event) : bool :=
  match e with EvClose _ => true | _ => false end.
Definition isFileConn (e : event) : bool :=
  match e with EvFileConn _ => true | _ => false end.
Definition isFileClose (e : event) : bool :=
  match e with EvFileClose _ => true | _ => false end.
Definition isSocket (e : event) : bool :=
  match e with EvSocket _ _ _ => true | _ => false end.

(** How many of the [NextIP] calls at [times] switch: a switch, and only
    a switch, changes the recorded instant. *)
Fixpoint switches (times : list Time) (r : resolved) : nat :=
  match times with
  | [] => 0
  | now :: times' =>
      match NextIP now r with
      | Done r' =>
          ((if Z.eqb (lastSwitched r') (lastSwitched r) then 0 else 1)
           + switches times' r')%nat
      | Panicked => 0%nat
      end
  end.

(** [func (d *ProtectedDialer) Init(_ dns.Client, _ outbound.Manager)]:
    "do nothing". *)
Definition Init : M unit := mret tt.

(** A full preparation cycle: [PrepareResolveChan] and then
    [PrepareDomain], as the caller of the dialer runs them. *)
Definition prepareCycle (net : nat -> Resolver) (closeCh : nat -> bool)
    (domainName : string) (prefIPv6 : bool) : M unit :=
  PrepareResolveChan;;
  PrepareDomain net closeCh domainName prefIPv6.

(** The socket address that [fdConn] hands to [unix.Connect]. *)
Definition sockaddrOf (ip : IP) (port : Z) : SockaddrInet6 :=
  {| saPort := port; saZoneId := 0; saAddr := copyAddr ip |}.

Definition isProtect (e : event) : bool :=
  match e with EvProtect _ => true | _ => false end.
Definition isCurrentIP (e : event) : bool :=
  match e with EvCurrentIP => true | _ => false end.

(** The socket call that [getFd] makes for a network, if it makes one. *)
Definition socketEvents (n : Network) : list event :=
  match n with
  | Network_TCP => [EvSocket AF_INET6 SOCK_STREAM IPPROTO_TCP]
  | Network_UDP => [EvSocket AF_INET6 SOCK_DGRAM IPPROTO_UDP]
  | _ => []
  end.

(** Calls of [Dial] one after the other, each with what the system
    answers during it; [None] when one of them parks or panics. *)
Fixpoint dials (hs : list Host) (dest : Destination) (w : world)
  : option world :=
  match hs with
  | [] => Some w
  | h :: hs' =>
      match Dial h dest w with
      | Ended (Done _) w' _ => dials hs' dest w'
      | _ => None
      end
  end.

(** ** Sample data *)

Module Sample.

(** 2001:db8::1 and 2001:db8::2 *)
Definition ip6_1 : IP :=
  [x20; x01; x0d; xb8; x00; x00; x00; x00;
   x00; x00; x00; x00; x00; x00; x00; x01].
Definition ip6_2 : IP :=
  [x20; x01; x0d; xb8; x00; x00; x00; x00;
   x00; x00; x00; x00; x00; x00; x00; x02].
(** 93.184.216.34 and 93.184.216.35, in the 16-byte form *)
Definition ip4_1 : IP :=
  [x00; x00; x00; x00; x00; x00; x00; x00;
   x00; x00; xff; xff; x5d; xb8; xd8; x22].
Definition ip4_2 : IP :=
  [x00; x00; x00; x00; x00; x00; x00; x00;
   x00; x00; xff; xff; x5d; xb8; xd8; x23].

Definition server : string := "proxy.example:443".

(** A resolver that answers [ips] for every host, on port 443. *)
Definition answering (ips : list IP) : Resolver :=
  {| SplitHostPort := fun _ => Val ("proxy.example"%string, "443"%string);
     LookupPort := fun _ => Val 443;
     LookupIPAddr := fun _ => Val (map (fun ip => mkIPAddr ip "") ips) |}.

(** A resolver whose every lookup fails. *)
Definition failing : Resolver :=
  {| SplitHostPort := fun _ => Val ("proxy.example"%string, "443"%string);
     LookupPort := fun _ => Val 443;
     LookupIPAddr := fun _ => Fail (ErrExternal 1) |}.

(** An instant of the year 2026, 63 900 000 000 seconds after the zero
    time. *)
Definition t0 : Time := 63900000000 * Second.

Definition endpoint (ips : list IP) : resolved :=
  {| domain := "proxy.example"; IPs := ips; Port := 443;
     ipIdx := 0; lastSwitched := zeroTime |}.

(** A list of 258 addresses: 258 mod 256 = 2. *)
Definition long : resolved := endpoint (replicate 258 ip6_1).

(** The endpoint of two addresses after its first switch, made at
    [t0]. *)
Definition pair : resolved := endpoint [ip4_1; ip6_1].
Definition pairSwitched : resolved := set_switch pair 1 t0.

(** A host whose socket call returns descriptor 7, with the given
    answers of [Protect] and [unix.Connect]. *)
Definition host (protect : bool) (connect : option error) : Host :=
  {| unix_Socket := fun _ _ _ => Val 7;
     Protect := fun _ => protect;
     unix_Connect := fun _ _ => connect;
     os_NewFile := fun _ => true;
     net_FileConn := fun fd => Val fd;
     time_Now := t0;
     resolver := answering [ip6_1; ip4_1] |}.

(** A host with no descriptor left: the socket call fails (24 is
    [EMFILE]); every later call would succeed. *)
Definition exhausted : Host :=
  {| unix_Socket := fun _ _ _ => Fail (ErrExternal 24);
     Protect := fun _ => true;
     unix_Connect := fun _ _ => None;
     os_NewFile := fun _ => true;
     net_FileConn := fun fd => Val fd;
     time_Now := t0;
     resolver := answering [ip6_1; ip4_1] |}.

(** A network on which the first two lookups fail and the third one
    answers, and one on which every lookup fails. *)
Definition flaky (n : nat) : Resolver :=
  if (n <? 2)%nat then failing else answering [ip6_1; ip4_1].
Definition dead (n : nat) : Resolver := failing.

(** A cancel signal that never fires. *)
Definition quiet (n : nat) : bool := false.

Definition dest : Destination :=
  {| destNetwork := Network_TCP; NetAddr := server |}.

(** The dialer before preparation has ended: channel 0 made and open,
    no endpoint. *)
Definition pending : world :=
  {| dialer := {| currentServer := server; resolveChan := Some 0%nat;
                  preferIPv6 := false; vServer := None |};
     chans := {[ 0%nat := false ]} |}.

(** The dialer after a preparation that gave up: channel 0 closed, no
    endpoint. *)
Definition gaveUp : world := withClosed 0%nat pending.

(** The dialer after a preparation that stored [pair]. *)
Definition prepared : world := withVServer pair gaveUp.

End Sample.

(** ** Properties of the reversal *)

Section Reversal.

Lemma index_lookup {A} (s : list A) (i : nat) (x : A) :
  s !! i = Some x -> index s (Z.of_nat i) = Done x.
Proof.
  intros H. unfold index.
  destruct (Z.ltb_spec (Z.of_nat i) 0); [lia|].
  by rewrite Nat2Z.id, H.
Qed.

Lemma index_Done_lt {A} (s : list A) (i : Z) :
  0 <= i < len s -> exists x, index s i = Done x /\ s !! Z.to_nat i = Some x.
Proof.
  intros [H0 H1]. unfold index, len in *.
  destruct (Z.ltb_spec i 0); [lia|].
  destruct (lookup_lt_is_Some_2 s (Z.to_nat i)) as [x Hx]; [lia|].
  exists x. by rewrite Hx.
Qed.

Lemma insert_middle {A} (a : list A) (x y : A) (l : list A) :
  <[length a := y]> (a ++ x :: l) = a ++ y :: l.
Proof. rewrite insert_app_r_alt by lia. by rewrite Nat.sub_diag. Qed.

(** One round of the loop exchanges the two entries that stand [i] from
    either end. *)
Lemma swap_ends (a m b : list IP) (x y : IP) :
  length a = length b ->
  swap (a ++ x :: m ++ y :: b) (Z.of_nat (length a))
       (len (a ++ x :: m ++ y :: b) - 1 - Z.of_nat (length a))
  = Done (a ++ y :: m ++ x :: b).
Proof.
  intros Hab. unfold swap, len.
  assert (Hopp : Z.of_nat (length (a ++ x :: m ++ y :: b)) - 1
                 - Z.of_nat (length a)
                 = Z.of_nat (length a + S (length m))).
  { repeat (rewrite ?length_app; cbn [length]). lia. }
  rewrite Hopp.
  rewrite (index_lookup _ _ x) by (by apply list_lookup_middle).
  cbn [obind].
  rewrite (index_lookup _ _ y).
  2:{ rewrite lookup_app_r by lia.
      replace (length a + S (length m) - length a)%nat
        with (S (length m)) by lia.
      cbn. by apply list_lookup_middle. }
  cbn [obind]. f_equal. rewrite !Nat2Z.id.
  rewrite insert_middle.
  replace (a ++ y :: m ++ y :: b) with ((a ++ y :: m) ++ y :: b)
    by (by rewrite <- app_assoc).
  replace (length a + S (length m))%nat with (length (a ++ y :: m))
    by (rewrite length_app; cbn; lia).
  rewrite insert_middle. by rewrite <- app_assoc.
Qed.

(** After the rounds [i = k-1, ..., 0] the [k] outermost entries of each
    end have changed sides, in reverse order. *)
Lemma revertLoop_ends (k : nat) : forall a m b : list IP,
  length a = k -> length b = k ->
  revertLoop k (a ++ m ++ b) = Done (rev b ++ m ++ rev a).
Proof.
  induction k as [|i IH]; intros a m b Ha Hb.
  - destruct a, b; try discriminate. cbn. by rewrite app_nil_r.
  - induction a as [|x a' _] using rev_ind; [discriminate|].
    destruct b as [|y b']; [discriminate|].
    rewrite length_app in Ha. cbn in Ha, Hb.
    assert (Hi : length a' = i) by lia.
    assert (Hi' : length b' = i) by lia.
    cbn [revertLoop].
    rewrite <- (app_assoc a' [x]). cbn [app].
    rewrite <- Hi at 1 2.
    rewrite swap_ends by lia. cbn [obind].
    replace (a' ++ y :: m ++ x :: b') with (a' ++ (y :: m ++ [x]) ++ b')
      by (cbn; by rewrite <- app_assoc).
    rewrite IH by done.
    f_equal. cbn [rev]. rewrite rev_app_distr. cbn.
    by rewrite <- !app_assoc.
Qed.

Lemma revertLoop_rev (s : list IP) :
  revertLoop (Z.to_nat (len s / 2)) s = Done (rev s).
Proof.
  unfold len. change 2 with (Z.of_nat 2).
  rewrite <- Nat2Z.inj_div, Nat2Z.id.
  set (n := length s). set (k := (n / 2)%nat).
  assert (Hk : (2 * k <= n /\ n - 2 * k <= 1)%nat).
  { subst k. pose proof (Nat.div_mod_eq n 2).
    pose proof (Nat.mod_upper_bound n 2). lia. }
  set (a := take k s).
  set (m := take (n - 2 * k) (drop k s)).
  set (b := drop (n - 2 * k) (drop k s)).
  assert (Hs : s = a ++ m ++ b).
  { subst a m b. by rewrite !take_drop. }
  assert (Ha : length a = k) by (subst a; rewrite length_take; lia).
  assert (Hb : length b = k) by (subst b; rewrite !length_drop; lia).
  assert (Hm : rev m = m).
  { assert (length m <= 1)%nat by (subst m; rewrite length_take; lia).
    destruct m as [|? [|? ?]]; cbn in *; (done || lia). }
  rewrite Hs at 1. rewrite revertLoop_ends by done.
  f_equal. rewrite Hs, !rev_app_distr, Hm. by rewrite <- app_assoc.
Qed.

Lemma index_head (s : list IP) :
  0 < len s -> exists x, index s 0 = Done x /\ head s = Some x.
Proof.
  intros H. destruct (index_Done_lt s 0) as (x & Hx & Hl); [lia|].
  exists x. split; [done|]. by rewrite head_lookup.
Qed.

Lemma index_last (s : list IP) :
  0 < len s -> exists x, index s (len s - 1) = Done x /\ last s = Some x.
Proof.
  intros H. destruct (index_Done_lt s (len s - 1)) as (x & Hx & Hl); [lia|].
  exists x. split; [done|]. rewrite last_lookup, <- Hl. f_equal.
  unfold len. lia.
Qed.

(** The guarded reversal never panics, and reverses exactly when its
    guard holds. *)
Lemma revertIPs_spec (p : bool) (s : list IP) :
  revertIPs p s = Done (if reverts p s then rev s else s).
Proof.
  unfold revertIPs, reverts, headIsV4, lastIsV4.
  destruct p; cbn [negb andb]; [done|].
  destruct (Z.ltb_spec 1 (len s)) as [Hlen|Hlen]; [|done].
  destruct (index_head s) as (f & -> & ->); [lia|].
  destruct (index_last s) as (l & Hl & ->); [lia|].
  cbn [obind andb]. destruct (isV4 f); cbn [negb andb]; [done|].
  rewrite Hl. cbn [obind]. destruct (isV4 l); [|done].
  apply revertLoop_rev.
Qed.

End Reversal.

(** ** [lookupAddr] *)

Section LookupAddr.

Variable rv : Resolver.
Variables (addr host port : string) (portnum : Z) (addrs : list IPAddr).
Hypothesis Hsplit : SplitHostPort rv addr = Val (host, port).
Hypothesis Hport : LookupPort rv port = Val portnum.
Hypothesis Hips : LookupIPAddr rv host = Val addrs.

Let ips := map addrIP addrs.

(** For a non-empty answer, [lookupAddr] returns the endpoint of that
    answer with the cursor at 0, reversed when the guard holds. *)
Lemma lookupAddr_resolved (p : bool) :
  addrs <> [] ->
  lookupAddr rv p addr
  = Done (Val {| domain := host;
                 IPs := if reverts p ips then rev ips else ips;
                 Port := portnum; ipIdx := 0; lastSwitched := zeroTime |}).
Proof using Hsplit Hport Hips.
  intros Hne. unfold lookupAddr. rewrite Hsplit, Hport, Hips.
  destruct (Z.eqb_spec (len addrs) 0) as [H0|_].
  { destruct addrs; [done | discriminate]. }
  rewrite revertIPs_spec. reflexivity.
Qed.

End LookupAddr.

(** [lookupAddr] always returns, and an endpoint it returns has its cursor
    at 0 inside a non-empty list. *)
Lemma lookupAddr_returns (rv : Resolver) (p : bool) (addr : string) :
  exists x : res resolved,
    lookupAddr rv p addr = Done x
    /\ forall rs, x = Val rs -> 0 <= ipIdx rs < len (IPs rs).
Proof.
  unfold lookupAddr.
  destruct (SplitHostPort rv addr) as [[host port]|e];
    [|by eexists; split; [done | intros ? [=]]].
  destruct (LookupPort rv port) as [portnum|e];
    [|by eexists; split; [done | intros ? [=]]].
  destruct (LookupIPAddr rv host) as [addrs|e];
    [|by eexists; split; [done | intros ? [=]]].
  destruct (Z.eqb_spec (len addrs) 0) as [H0|H0];
    [by eexists; split; [done | intros ? [=]]|].
  rewrite revertIPs_spec. cbn [obind].
  eexists; split; [done|]. intros rs [= <-]. cbn [ipIdx IPs].
  assert (0 < len addrs) by (unfold len in *; lia).
  destruct (reverts p _); unfold len in *;
    rewrite ?length_rev, length_map; lia.
Qed.

Lemma head_rev (s : list IP) : head (rev s) = last s.
Proof.
  induction s as [|x s' _] using rev_ind; [done|].
  by rewrite rev_unit, last_snoc.
Qed.

Lemma headIsV4_rev (s : list IP) : headIsV4 (rev s) = lastIsV4 s.
Proof. unfold headIsV4, lastIsV4. by rewrite head_rev. Qed.

Lemma len_map_addrIP (addrs : list IPAddr) : len (map addrIP addrs) = len addrs.
Proof. unfold len. by rewrite length_map. Qed.

(** C3, as amended.  When the caller does not prefer IPv6, the answer of
    the resolver has more than one entry, its first entry is not an IPv4
    address and its last entry is one, the list stored by [lookupAddr] is
    exactly the reversal of the answer, so that the order within each
    family is reversed as well. *)
Theorem lookupAddr_stores_reversal
    (rv : Resolver) (addr host port : string) (portnum : Z)
    (addrs : list IPAddr) :
  SplitHostPort rv addr = Val (host, port) ->
  LookupPort rv port = Val portnum ->
  LookupIPAddr rv host = Val addrs ->
  1 < len addrs ->
  headIsV4 (map addrIP addrs) = false ->
  lastIsV4 (map addrIP addrs) = true ->
  exists rs, lookupAddr rv false addr = Done (Val rs)
             /\ IPs rs = rev (map addrIP addrs).
Proof.
  intros Hs Hp Hi Hlen Hh Hl.
  rewrite (lookupAddr_resolved rv addr host port portnum addrs Hs Hp Hi)
    by (intros ->; unfold len in Hlen; cbn in Hlen; lia).
  eexists; split; [reflexivity|]. cbn [IPs].
  unfold reverts. rewrite len_map_addrIP, Hh, Hl.
  destruct (Z.ltb_spec 1 (len addrs)); [done | lia].
Qed.

Lemma lookupAddr_stores_reversal_witness :
  exists rs, lookupAddr (Sample.answering [Sample.ip6_1; Sample.ip6_2; Sample.ip4_1; Sample.ip4_2])
               false Sample.server = Done (Val rs)
             /\ IPs rs = [Sample.ip4_2; Sample.ip4_1; Sample.ip6_2; Sample.ip6_1].
Proof.
  destruct (lookupAddr_stores_reversal
              (Sample.answering [Sample.ip6_1; Sample.ip6_2; Sample.ip4_1; Sample.ip4_2])
              Sample.server "proxy.example" "443" 443
              (map (fun ip => mkIPAddr ip "")
                   [Sample.ip6_1; Sample.ip6_2; Sample.ip4_1; Sample.ip4_2]))
    as (rs & Hrs & Hips); try reflexivity.
  exists rs. split; [exact Hrs | exact Hips].
Defined.

(** C3, as stated, fails: an answer with the IPv4 entry in front has more
    than one entry and contains an IPv4 entry, and is stored as it is. *)
Lemma lookupAddr_IPv4_in_front_kept :
  1 < len [Sample.ip4_1; Sample.ip6_1]
  /\ (exists ip, ip ∈ [Sample.ip4_1; Sample.ip6_1] /\ isV4 ip = true)
  /\ exists rs,
       lookupAddr (Sample.answering [Sample.ip4_1; Sample.ip6_1]) false Sample.server
       = Done (Val rs)
       /\ IPs rs <> rev [Sample.ip4_1; Sample.ip6_1].
Proof.
  split; [reflexivity|]. split.
  - exists Sample.ip4_1. split; [apply list_elem_of_here | reflexivity].
  - eexists. split; [vm_compute; reflexivity|]. vm_compute. discriminate.
Qed.

Lemma headIsV4_Forall (s : list IP) :
  s <> [] -> Forall (fun ip => isV4 ip = true) s -> headIsV4 s = true.
Proof. intros Hne Hall. destruct Hall; [done | by cbn]. Qed.

Lemma lastIsV4_Forall_not (s : list IP) :
  Forall (fun ip => isV4 ip = false) s -> lastIsV4 s = false.
Proof.
  intros Hall. unfold lastIsV4. destruct (last s) as [x|] eqn:Hx; [|done].
  rewrite last_lookup in Hx.
  by apply (Forall_lookup_1 _ _ _ _ Hall Hx).
Qed.

(** C1, as amended.  With [preferIPv6 = false], the list stored by
    [lookupAddr] for an answer of more than one entry starts with an IPv4
    address whenever the first or the last entry of the answer is one (as
    it is when the answer contains an IPv4 entry and lists its IPv6
    entries in front); an answer of one family or of one entry is stored
    unchanged. *)
Theorem lookupAddr_IPv4_leads
    (rv : Resolver) (addr host port : string) (portnum : Z)
    (addrs : list IPAddr) :
  SplitHostPort rv addr = Val (host, port) ->
  LookupPort rv port = Val portnum ->
  LookupIPAddr rv host = Val addrs ->
  addrs <> [] ->
  exists rs,
    lookupAddr rv false addr = Done (Val rs)
    /\ (1 < len addrs ->
        headIsV4 (map addrIP addrs) = true \/ lastIsV4 (map addrIP addrs) = true ->
        headIsV4 (IPs rs) = true)
    /\ (len addrs <= 1
        \/ Forall (fun ip => isV4 ip = true) (map addrIP addrs)
        \/ Forall (fun ip => isV4 ip = false) (map addrIP addrs) ->
        IPs rs = map addrIP addrs).
Proof.
  intros Hs Hp Hi Hne.
  rewrite (lookupAddr_resolved rv addr host port portnum addrs Hs Hp Hi false Hne).
  eexists; split; [reflexivity|]. cbn [IPs].
  unfold reverts. cbn [negb andb]. rewrite len_map_addrIP.
  set (ips := map addrIP addrs).
  assert (Hips : ips <> []) by (subst ips; by destruct addrs).
  split.
  - intros Hlen Hv4.
    destruct (Z.ltb_spec 1 (len addrs)); [|lia]. cbn [andb].
    destruct (headIsV4 ips) eqn:Hh; cbn [negb andb]; [done|].
    destruct (lastIsV4 ips) eqn:Hl; [by rewrite headIsV4_rev|].
    by destruct Hv4.
  - intros [Hlen | [Hall | Hall]].
    + destruct (Z.ltb_spec 1 (len addrs)); [lia | done].
    + rewrite (headIsV4_Forall ips) by done.
      by rewrite andb_false_r.
    + rewrite (lastIsV4_Forall_not ips) by done.
      by rewrite andb_false_r.
Qed.

Lemma lookupAddr_IPv4_leads_witness :
  exists rs,
    lookupAddr (Sample.answering [Sample.ip6_1; Sample.ip4_1]) false Sample.server
    = Done (Val rs)
    /\ headIsV4 (IPs rs) = true.
Proof.
  destruct (lookupAddr_IPv4_leads
              (Sample.answering [Sample.ip6_1; Sample.ip4_1])
              Sample.server "proxy.example" "443" 443
              (map (fun ip => mkIPAddr ip "") [Sample.ip6_1; Sample.ip4_1]))
    as (rs & Hrs & Hfirst & _); try reflexivity; [discriminate|].
  exists rs. split; [exact Hrs|].
  apply Hfirst; [reflexivity | right; reflexivity].
Defined.

(** C1, as stated, fails: an answer of two families with its only IPv4
    entry in the middle is stored as it is, an IPv6 address first. *)
Lemma lookupAddr_IPv4_in_the_middle :
  1 < len [Sample.ip6_1; Sample.ip4_1; Sample.ip6_2]
  /\ (exists ip, ip ∈ [Sample.ip6_1; Sample.ip4_1; Sample.ip6_2] /\ isV4 ip = true)
  /\ (exists ip, ip ∈ [Sample.ip6_1; Sample.ip4_1; Sample.ip6_2] /\ isV4 ip = false)
  /\ exists rs,
       lookupAddr (Sample.answering [Sample.ip6_1; Sample.ip4_1; Sample.ip6_2])
                  false Sample.server
       = Done (Val rs)
       /\ headIsV4 (IPs rs) = false.
Proof.
  split; [reflexivity|]. split; [|split].
  - exists Sample.ip4_1. split; [|reflexivity].
    apply list_elem_of_further, list_elem_of_here.
  - exists Sample.ip6_1. split; [apply list_elem_of_here | reflexivity].
  - eexists. split; vm_compute; reflexivity.
Qed.

(** ** The rotation cursor *)

Section Rotation.

Lemma Sub_lt (t u : Time) (d : Duration) :
  minDuration < d <= maxDuration ->
  (Sub t u <? d) = (t - u <? d).
Proof.
  intros Hd. unfold Sub.
  destruct (Z.ltb_spec (t - u) minDuration).
  - destruct (Z.ltb_spec minDuration d), (Z.ltb_spec (t - u) d); lia.
  - destruct (Z.ltb_spec maxDuration (t - u)); [|done].
    destruct (Z.ltb_spec maxDuration d), (Z.ltb_spec (t - u) d); lia.
Qed.

Lemma Sub_5s (t u : Time) :
  (Sub t u <? Second * 5) = (t - u <? Second * 5).
Proof. apply Sub_lt. unfold minDuration, maxDuration, Second. lia. Qed.

(** A throttled call, and a call on a list of fewer than two addresses,
    return the endpoint as it was. *)
Lemma NextIP_noop (now : Time) (r : resolved) :
  len (IPs r) < 2 \/ now - lastSwitched r < Second * 5 ->
  NextIP now r = Done r.
Proof.
  intros H. unfold NextIP.
  destruct (Z.ltb_spec 1 (len (IPs r))); [|done].
  rewrite Sub_5s.
  destruct (Z.ltb_spec (now - lastSwitched r) (Second * 5)); [done | lia].
Qed.

(** A call that is not throttled records [now] and moves the cursor to
    the next index below [len mod 256], or to 0. *)
Lemma NextIP_switch (now : Time) (r : resolved) :
  2 <= len (IPs r) ->
  Second * 5 <= now - lastSwitched r ->
  NextIP now r
  = Done (set_switch r
            (if uint8 (len (IPs r)) <=? uint8 (ipIdx r + 1)
             then 0 else uint8 (ipIdx r + 1))
            now).
Proof.
  intros Hlen Hgap. unfold NextIP.
  destruct (Z.ltb_spec 1 (len (IPs r))); [|lia].
  rewrite Sub_5s.
  destruct (Z.ltb_spec (now - lastSwitched r) (Second * 5)); [lia|].
  cbn [IPs ipIdx set_switch].
  set (i1 := uint8 (ipIdx r + 1)). set (m := uint8 (len (IPs r))).
  assert (Hi1 : 0 <= i1 < 256) by (apply Z.mod_pos_bound; lia).
  assert (Hm : 0 <= m <= len (IPs r)).
  { subst m. unfold uint8. split; [apply Z.mod_pos_bound; lia|].
    apply Z.mod_le; lia. }
  destruct (Z.leb_spec m i1);
    cbv zeta; cbn [set_ipIdx set_switch IPs ipIdx lastSwitched].
  - destruct (index_Done_lt (IPs r) 0) as (x & -> & _); [lia|]. done.
  - destruct (index_Done_lt (IPs r) i1) as (x & -> & _); [lia|]. done.
Qed.

(** Every call of [NextIP] returns, keeps the list, and leaves a cursor
    that points into it in place. *)
Lemma NextIP_in_range (now : Time) (r : resolved) :
  0 <= ipIdx r < len (IPs r) ->
  exists r', NextIP now r = Done r'
             /\ IPs r' = IPs r /\ 0 <= ipIdx r' < len (IPs r').
Proof.
  intros Hr.
  destruct (Z.lt_ge_cases (len (IPs r)) 2) as [Hlen|Hlen];
    [exists r; split; [apply NextIP_noop; by left | done]|].
  destruct (Z.lt_ge_cases (now - lastSwitched r) (Second * 5)) as [Hgap|Hgap];
    [exists r; split; [apply NextIP_noop; by right | done]|].
  rewrite NextIP_switch by lia. eexists; split; [reflexivity|].
  cbn [IPs ipIdx set_switch]. split; [done|].
  set (i1 := uint8 (ipIdx r + 1)). set (m := uint8 (len (IPs r))).
  assert (Hi1 : 0 <= i1 < 256) by (apply Z.mod_pos_bound; lia).
  assert (Hm : 0 <= m <= len (IPs r)).
  { subst m. unfold uint8. split; [apply Z.mod_pos_bound; lia|].
    apply Z.mod_le; lia. }
  destruct (Z.leb_spec m i1); lia.
Qed.

Lemma currentIP_in_range (r : resolved) :
  0 <= ipIdx r < len (IPs r) ->
  exists ip, currentIP r = Done ip /\ IPs r !! Z.to_nat (ipIdx r) = Some ip.
Proof.
  intros Hr. unfold currentIP.
  destruct (Z.ltb_spec 0 (len (IPs r))); [|lia].
  by apply index_Done_lt.
Qed.

End Rotation.

(** C2.  The cursor of an endpoint points into its list, always: it does
    so in every endpoint that [lookupAddr] returns, and from an endpoint
    where it does, every sequence of [NextIP] and [currentIP] calls runs
    to its end without an index out of range, keeps the list, and leaves
    the cursor in [[0, len(IPs))]; [currentIP] then returns the address
    under the cursor. *)
Theorem cursor_stays_in_range :
  (forall (rv : Resolver) (p : bool) (addr : string) (rs : resolved),
      lookupAddr rv p addr = Done (Val rs) ->
      0 <= ipIdx rs < len (IPs rs))
  /\ (forall (ops : list op) (r : resolved),
        0 <= ipIdx r < len (IPs r) ->
        exists r', runOps ops r = Done r'
                   /\ IPs r' = IPs r
                   /\ 0 <= ipIdx r' < len (IPs r')
                   /\ exists ip, currentIP r' = Done ip
                                 /\ IPs r' !! Z.to_nat (ipIdx r') = Some ip).
Proof.
  split.
  { intros rv p addr rs Hrs.
    destruct (lookupAddr_returns rv p addr) as (x & Hx & Hin).
    apply Hin. congruence. }
  intros ops. induction ops as [|o ops IH]; intros r Hr.
  - exists r. cbn. repeat split; try lia. by apply currentIP_in_range.
  - destruct o as [now|]; cbn [runOps].
    + destruct (NextIP_in_range now r Hr) as (r1 & -> & Hips & Hr1).
      cbn [obind]. destruct (IH r1 Hr1) as (r' & -> & Hips' & Hr' & Hcur).
      exists r'. repeat split; try lia; [congruence | done].
    + destruct (currentIP_in_range r Hr) as (ip & -> & _). cbn [obind].
      by apply IH.
Qed.

Lemma cursor_stays_in_range_witness :
  exists rs r',
    lookupAddr (Sample.answering [Sample.ip6_1; Sample.ip4_1]) false Sample.server
    = Done (Val rs)
    /\ runOps [OpNextIP Sample.t0; OpCurrentIP; OpNextIP (Sample.t0 + 6 * Second);
               OpNextIP (Sample.t0 + 7 * Second); OpCurrentIP] rs = Done r'
    /\ 0 <= ipIdx r' < len (IPs r').
Proof.
  destruct cursor_stays_in_range as [Hfresh Hkept].
  eexists. 
  destruct (Hkept [OpNextIP Sample.t0; OpCurrentIP; OpNextIP (Sample.t0 + 6 * Second);
                   OpNextIP (Sample.t0 + 7 * Second); OpCurrentIP]
                  (Sample.endpoint [Sample.ip4_1; Sample.ip6_1]))
    as (r' & Hrun & _ & Hr' & _).
  - apply (Hfresh (Sample.answering [Sample.ip6_1; Sample.ip4_1]) false Sample.server).
    reflexivity.
  - exists r'. split; [reflexivity|]. split; [exact Hrun | exact Hr'].
Defined.

(** C4, as amended.  A [NextIP] call on an endpoint with fewer than two
    addresses, or made less than 5 seconds after the instant recorded by
    the last switch, returns the endpoint as it was, cursor and recorded
    instant alike; in particular, when a call at [now] has switched, a
    second call less than 5 seconds after [now] leaves the cursor where
    the first one put it. *)
Theorem NextIP_throttle (now : Time) (r : resolved) :
  (len (IPs r) < 2 \/ now - lastSwitched r < Second * 5 ->
   NextIP now r = Done r)
  /\ (forall (r1 : resolved) (t2 : Time),
        2 <= len (IPs r) ->
        Second * 5 <= now - lastSwitched r ->
        NextIP now r = Done r1 ->
        t2 - now < Second * 5 ->
        lastSwitched r1 = now /\ NextIP t2 r1 = Done r1).
Proof.
  split; [apply NextIP_noop|].
  intros r1 t2 Hlen Hgap H1 H2.
  rewrite NextIP_switch in H1 by done. injection H1 as <-.
  split; [done|]. apply NextIP_noop. right. by cbn.
Qed.

Lemma NextIP_throttle_witness :
  NextIP (Sample.t0 + 3 * Second) Sample.pairSwitched = Done Sample.pairSwitched
  /\ NextIP Sample.t0 Sample.pair = Done Sample.pairSwitched
  /\ NextIP (Sample.t0 + 4 * Second) Sample.pairSwitched = Done Sample.pairSwitched.
Proof.
  split; [|split; [reflexivity|]].
  - destruct (NextIP_throttle (Sample.t0 + 3 * Second) Sample.pairSwitched)
      as [Hnoop _].
    apply Hnoop. right. vm_compute. reflexivity.
  - destruct (NextIP_throttle Sample.t0 Sample.pair) as [_ Htwice].
    apply (Htwice Sample.pairSwitched (Sample.t0 + 4 * Second)).
    + vm_compute. discriminate.
    + vm_compute. discriminate.
    + reflexivity.
    + vm_compute. reflexivity.
Defined.

(** C4, as stated, fails in its last part: of two calls 4 seconds apart,
    the first one throttled, the second one comes 8 seconds after the last
    switch and moves the cursor. *)
Lemma NextIP_two_calls_4s_apart :
  NextIP Sample.t0 Sample.pair = Done Sample.pairSwitched
  /\ 2 <= len (IPs Sample.pairSwitched)
  /\ 0 <= (Sample.t0 + 8 * Second) - (Sample.t0 + 4 * Second) < Second * 5
  /\ exists r1 r2,
       NextIP (Sample.t0 + 4 * Second) Sample.pairSwitched = Done r1
       /\ NextIP (Sample.t0 + 8 * Second) r1 = Done r2
       /\ ipIdx r1 = 1 /\ ipIdx r2 = 0.
Proof.
  split; [reflexivity|]. split; [vm_compute; discriminate|].
  split; [vm_compute; split; [discriminate | reflexivity]|].
  eexists _, _. split; [reflexivity|]. split; [reflexivity|].
  split; reflexivity.
Qed.

Section Wraparound.

Lemma cursorAfter_next (m : Z) (n : nat) :
  0 <= m < 256 ->
  (if m <=? uint8 (cursorAfter m n + 1) then 0
   else uint8 (cursorAfter m n + 1))
  = cursorAfter m (S n).
Proof.
  intros Hm. unfold cursorAfter, uint8.
  destruct (Z.leb_spec m 1) as [H1|H1].
  - change ((0 + 1) mod 256) with 1.
    destruct (Z.leb_spec m 1); [done | lia].
  - pose proof (Z.mod_pos_bound (Z.of_nat n) m ltac:(lia)) as Hc.
    pose proof (Z.div_mod (Z.of_nat n) m ltac:(lia)) as Hn.
    set (c := Z.of_nat n mod m) in *. set (q := Z.of_nat n / m) in *.
    rewrite Z.mod_small by lia.
    destruct (Z.leb_spec m (c + 1)).
    + apply (Z.mod_unique _ _ (q + 1)); lia.
    + apply (Z.mod_unique _ _ q); lia.
Qed.

Variable r0 : resolved.
Hypothesis Hlong : 256 <= len (IPs r0).

Let m := len (IPs r0) mod 256.

Lemma m_bounds : 0 <= m < 256 /\ m <= len (IPs r0).
Proof using Hlong.
  subst m. pose proof (Z.mod_pos_bound (len (IPs r0)) 256 ltac:(lia)).
  pose proof (Z.mod_le (len (IPs r0)) 256 ltac:(lia) ltac:(lia)). lia.
Qed.

(** Throttled or not, no call takes the cursor to [len mod 256] or
    beyond, index 0 apart. *)
Lemma rotations_below_m (times : list Time) : forall r : resolved,
  IPs r = IPs r0 ->
  0 <= ipIdx r < Z.max 1 m ->
  exists r', rotations times r = Done r'
             /\ IPs r' = IPs r0 /\ 0 <= ipIdx r' < Z.max 1 m.
Proof using Hlong.
  pose proof m_bounds as Hm.
  induction times as [|now times IH]; intros r Hips Hr; [by exists r|].
  cbn [rotations].
  destruct (Z.lt_ge_cases (now - lastSwitched r) (Second * 5)) as [Hgap|Hgap].
  - rewrite NextIP_noop by (by right). by apply IH.
  - rewrite NextIP_switch by (rewrite ?Hips; lia). cbn [obind].
    apply IH; [by cbn|]. cbn [ipIdx set_switch]. rewrite Hips.
    fold (uint8 (len (IPs r0))). change (uint8 (len (IPs r0))) with m.
    pose proof (Z.mod_pos_bound (ipIdx r + 1) 256 ltac:(lia)).
    unfold uint8. destruct (Z.leb_spec m ((ipIdx r + 1) mod 256)); lia.
Qed.

(** Calls that are not throttled step the cursor through
    [0, 1, ..., m - 1] and back to 0. *)
Lemma rotations_cycle (times : list Time) : forall (r : resolved) (n : nat),
  IPs r = IPs r0 ->
  ipIdx r = cursorAfter m n ->
  spaced (lastSwitched r) times ->
  exists r', rotations times r = Done r'
             /\ ipIdx r' = cursorAfter m (n + length times).
Proof using Hlong.
  pose proof m_bounds as Hm.
  induction times as [|now times IH]; intros r n Hips Hr Hsp.
  - exists r. by rewrite Nat.add_0_r.
  - destruct Hsp as [Hgap Hsp]. cbn [rotations].
    rewrite NextIP_switch by (rewrite ?Hips; lia). cbn [obind].
    cbn [length]. rewrite <- Nat.add_succ_comm.
    apply IH; [by cbn | | by cbn].
    cbn [ipIdx set_switch]. rewrite Hips, Hr.
    change (uint8 (len (IPs r0))) with m.
    apply cursorAfter_next. lia.
Qed.

End Wraparound.

(** C10.  The cursor is an 8-bit value and the wraparound test compares it
    with [len(IPs)] modulo 256.  On a list of 256 addresses or more, from
    the cursor at 0, any calls of [NextIP] leave the cursor inside the
    list and below [len mod 256], index 0 apart; calls that are not
    throttled take it through [0 .. len mod 256 - 1] in a cycle, and leave
    it at 0 when [len mod 256 <= 1].  No address at an index from
    [len mod 256] on, index 0 apart, is ever selected. *)
Theorem cursor_cycles_below_len_mod_256 (times : list Time) (r : resolved) :
  256 <= len (IPs r) ->
  ipIdx r = 0 ->
  (exists r', rotations times r = Done r'
              /\ 0 <= ipIdx r' < len (IPs r)
              /\ (ipIdx r' = 0 \/ ipIdx r' < len (IPs r) mod 256))
  /\ (spaced (lastSwitched r) times ->
      exists r', rotations times r = Done r'
                 /\ ipIdx r' = cursorAfter (len (IPs r) mod 256) (length times)).
Proof.
  intros Hlong H0. split.
  - destruct (rotations_below_m r Hlong times r) as (r' & Hrun & _ & Hr');
      [done | lia |].
    pose proof (m_bounds r Hlong).
    exists r'. split; [done|]. split; lia.
  - intros Hsp.
    destruct (rotations_cycle r Hlong times r 0) as (r' & Hrun & Hr');
      [done | | done | by exists r'].
    rewrite H0. unfold cursorAfter. destruct (_ <=? 1); [done|].
    cbn [Z.of_nat]. by rewrite Zmod_0_l.
Qed.

Lemma cursor_cycles_below_len_mod_256_witness :
  exists r',
    rotations [Sample.t0; Sample.t0 + 5 * Second; Sample.t0 + 10 * Second]
              Sample.long = Done r'
    /\ ipIdx r' = 1.
Proof.
  destruct (cursor_cycles_below_len_mod_256
              [Sample.t0; Sample.t0 + 5 * Second; Sample.t0 + 10 * Second]
              Sample.long) as [_ Hcycle].
  - vm_compute. discriminate.
  - reflexivity.
  - destruct Hcycle as (r' & Hrun & Hr').
    + repeat split; vm_compute; discriminate.
    + exists r'. split; [exact Hrun | exact Hr'].
Defined.

(** ** The protected connection *)

Lemma run_bind {A B} (m : M A) (k : A -> M B) (w : world) :
  (m ≫= k) w
  = match m w with
    | (Done a, w1, t1) =>
        match k a w1 with (o, w2, t2) => (o, w2, t1 ++ t2) end
    | (Panicked, w1, t1) => (Panicked, w1, t1)
    end.
Proof. reflexivity. Qed.

(** Runs the plain steps of a method body. *)
Ltac run_M :=
  unfold mbind, M_bind, bind, mret, M_ret, ret, emit, lift,
         getDialer, putDialer;
  cbn [app dialer chans].

(** C9.  When the injected [Protect] answers false for the descriptor,
    [fdConn] returns the error "fail to protect" and no connection; it has
    asked [Protect] and closed the descriptor, in that order, and done
    nothing else: [unix.Connect] is not called. *)
Theorem fdConn_protect_rejected
    (h : Host) (ip : IP) (port fd : Z) (w : world) :
  Protect h fd = false ->
  fdConn h ip port fd w
  = (Done (Fail ErrFailToProtect), w, [EvProtect fd; EvClose fd])
  /\ calls isConnect [EvProtect fd; EvClose fd] = 0%nat.
Proof.
  intros Hp. split; [|reflexivity].
  unfold fdConn, defer. rewrite run_bind. cbn [emit].
  rewrite Hp. reflexivity.
Qed.

Lemma fdConn_protect_rejected_witness :
  fdConn (Sample.host false None) Sample.ip4_1 443 7 Sample.prepared
  = (Done (Fail ErrFailToProtect), Sample.prepared, [EvProtect 7; EvClose 7]).
Proof.
  apply (fdConn_protect_rejected (Sample.host false None)
           Sample.ip4_1 443 7 Sample.prepared).
  reflexivity.
Defined.

Lemma calls_app (p : event -> bool) (t1 t2 : list event) :
  calls p (t1 ++ t2) = (calls p t1 + calls p t2)%nat.
Proof. unfold calls. by rewrite List.filter_app, length_app. Qed.

(** [fdConn] returns, leaves the memory alone, and calls neither
    [NextIP] nor the socket call. *)
Lemma fdConn_returns (h : Host) (ip : IP) (port fd : Z) (w : world) :
  exists (x : res Conn) (t : list event),
    fdConn h ip port fd w = (Done x, w, t) /\ calls isNextIP t = 0%nat.
Proof.
  unfold fdConn, defer. rewrite run_bind. cbn [emit].
  destruct (Protect h fd); cbn [negb]; [|by eexists _, _].
  rewrite run_bind. cbn [emit].
  destruct (unix_Connect h fd _); [by eexists _, _|].
  rewrite run_bind. cbn [emit].
  destruct (os_NewFile h fd); cbn [negb]; by eexists _, _.
Qed.

Lemma getFd_returns (h : Host) (n : Network) (w : world) :
  exists (x : res Z) (t : list event),
    getFd h n w = (Done x, w, t) /\ calls isNextIP t = 0%nat.
Proof. destruct n; by eexists _, _. Qed.

Lemma currentIP_then_NextIP (now : Time) (r : resolved) (ip : IP) :
  currentIP r = Done ip -> exists r', NextIP now r = Done r'.
Proof.
  unfold currentIP. destruct (Z.ltb_spec 0 (len (IPs r))) as [Hlen|Hlen].
  - intros Hidx. unfold index in Hidx.
    destruct (Z.ltb_spec (ipIdx r) 0); [done|].
    destruct (IPs r !! Z.to_nat (ipIdx r)) eqn:Hl; [|done].
    apply lookup_lt_Some in Hl.
    destruct (NextIP_in_range now r) as (r' & Hr' & _); [unfold len; lia|].
    by exists r'.
  - intros _. exists r. apply NextIP_noop. left. lia.
Qed.

(** ** Dial *)

(** C7.  [Dial] to the prepared server with an endpoint stored first
    asks [getFd] for a descriptor.  When [getFd] fails, the first step of
    the connection attempt, [Dial] returns that error as it is, with
    [NextIP] not called and the memory, the rotation state included, as
    it was.  With a descriptor, and the current address read: when
    [fdConn] fails, [Dial] calls [NextIP] on the stored endpoint once,
    returns the error of [fdConn] as it is, and makes no second attempt
    (one [getFd], one [fdConn]); when [fdConn] succeeds, [Dial] returns its
    connection and leaves the memory, the rotation state included, as it
    was. *)
Theorem Dial_prepared_connect
    (h : Host) (dest : Destination) (w : world) (r : resolved) :
  NetAddr dest = currentServer (dialer w) ->
  vServer (dialer w) = Some r ->
  exists (fdr : res Z) (ts : list event),
    getFd h (destNetwork dest) w = (Done fdr, w, ts)
    /\ match fdr with
       | Fail err =>
           Dial h dest w = Ended (Done (Fail err)) w ts
           /\ calls isNextIP ts = 0%nat
       | Val fd =>
           forall ip : IP,
             currentIP r = Done ip ->
             exists (cr : res Conn) (tc : list event),
               fdConn h ip (Port r) fd w = (Done cr, w, tc)
               /\ match cr with
                  | Fail err =>
                      exists r',
                        NextIP (time_Now h) r = Done r'
                        /\ Dial h dest w
                           = Ended (Done (Fail err)) (withVServer r' w)
                                   (ts ++ EvCurrentIP :: tc ++ [EvNextIP])
                        /\ calls isNextIP
                             (ts ++ EvCurrentIP :: tc ++ [EvNextIP])
                           = 1%nat
                  | Val conn =>
                      Dial h dest w
                      = Ended (Done (Val conn)) w (ts ++ EvCurrentIP :: tc)
                      /\ calls isNextIP (ts ++ EvCurrentIP :: tc) = 0%nat
                  end
       end.
Proof.
  intros Haddr Hv.
  destruct (getFd_returns h (destNetwork dest) w) as (fdr & ts & Hfd & Hts).
  exists fdr, ts. split; [done|].
  assert (HD : Dial h dest w = run (dialPrepared h dest) w).
  { unfold Dial. rewrite Haddr, String.eqb_refl. by rewrite Hv. }
  destruct fdr as [fd|err].
  2:{ split; [|done]. rewrite HD. unfold run, dialPrepared.
      rewrite run_bind, Hfd. run_M. by rewrite app_nil_r. }
  intros ip Hcur.
  destruct (fdConn_returns h ip (Port r) fd w) as (cr & tc & Hconn & Htc).
  exists cr, tc. split; [done|].
  assert (Hderef : derefVServer w = (Done r, w, [])).
  { unfold derefVServer. rewrite run_bind. cbn [getDialer]. by rewrite Hv. }
  assert (Hcall : callCurrentIP w = (Done ip, w, [EvCurrentIP])).
  { unfold callCurrentIP. rewrite run_bind, Hderef, run_bind. cbn [emit].
    unfold lift. by rewrite Hcur. }
  destruct cr as [conn|err].
  - split.
    + rewrite HD. unfold run, dialPrepared.
      rewrite run_bind, Hfd, run_bind, Hcall, run_bind, Hderef, run_bind, Hconn.
      run_M. by rewrite !app_nil_r.
    + rewrite calls_app, Hts. change (EvCurrentIP :: tc) with ([EvCurrentIP] ++ tc).
      by rewrite calls_app, Htc.
  - destruct (currentIP_then_NextIP (time_Now h) r ip Hcur) as (r' & Hnext).
    exists r'. split; [done|]. split.
    + rewrite HD. unfold run, dialPrepared.
      rewrite run_bind, Hfd, run_bind, Hcall, run_bind, Hderef, run_bind, Hconn.
      rewrite run_bind. unfold callNextIP at 1.
      rewrite run_bind, Hderef, run_bind. cbn [emit].
      rewrite run_bind. unfold lift at 1. rewrite Hnext.
      run_M. reflexivity.
    + rewrite calls_app, Hts. change (EvCurrentIP :: tc ++ [EvNextIP])
        with ([EvCurrentIP] ++ tc ++ [EvNextIP]).
      by rewrite !calls_app, Htc.
Qed.

Lemma Dial_prepared_connect_witness :
  exists r',
    NextIP Sample.t0 Sample.pair = Done r'
    /\ Dial (Sample.host true (Some (ErrExternal 111))) Sample.dest Sample.prepared
       = Ended (Done (Fail (ErrExternal 111))) (withVServer r' Sample.prepared)
               ([EvSocket AF_INET6 SOCK_STREAM IPPROTO_TCP]
                ++ EvCurrentIP
                   :: [EvProtect 7;
                       EvConnect 7 {| saPort := 443; saZoneId := 0;
                                      saAddr := Sample.ip4_1 |};
                       EvClose 7]
                   ++ [EvNextIP]).
Proof.
  destruct (Dial_prepared_connect
              (Sample.host true (Some (ErrExternal 111)))
              Sample.dest Sample.prepared Sample.pair)
    as (fdr & ts & Hfd & Hcase); [reflexivity | reflexivity |].
  change (getFd (Sample.host true (Some (ErrExternal 111)))
                (destNetwork Sample.dest) Sample.prepared)
    with (Done (Val 7 : res Z), Sample.prepared,
          [EvSocket AF_INET6 SOCK_STREAM IPPROTO_TCP]) in Hfd.
  injection Hfd as <- <-.
  destruct (Hcase Sample.ip4_1) as (cr & tc & Hconn & Hcr); [reflexivity|].
  change (fdConn (Sample.host true (Some (ErrExternal 111))) Sample.ip4_1
                 (Port Sample.pair) 7 Sample.prepared)
    with (Done (Fail (ErrExternal 111) : res Conn), Sample.prepared,
          [EvProtect 7;
           EvConnect 7 {| saPort := 443; saZoneId := 0;
                          saAddr := Sample.ip4_1 |};
           EvClose 7]) in Hconn.
  injection Hconn as <- <-.
  destruct Hcr as (r' & Hnext & Hdial & _).
  exists r'. split; [exact Hnext | exact Hdial].
Defined.

(** C7, as stated, fails when the connection attempt fails at its first
    step: with the destination equal to the prepared server and an
    endpoint stored, a socket call that fails makes [Dial] return that
    error with [NextIP] not called and the endpoint as it was. *)
Lemma Dial_socket_failure_no_NextIP :
  NetAddr Sample.dest = currentServer (dialer Sample.prepared)
  /\ vServer (dialer Sample.prepared) = Some Sample.pair
  /\ Dial Sample.exhausted Sample.dest Sample.prepared
     = Ended (Done (Fail (ErrExternal 24))) Sample.prepared
             [EvSocket AF_INET6 SOCK_STREAM IPPROTO_TCP]
  /\ calls isNextIP [EvSocket AF_INET6 SOCK_STREAM IPPROTO_TCP] = 0%nat.
Proof. repeat split. Qed.

(** C8.  [Dial] to the prepared server with no endpoint stored parks in
    the receive from [d.resolveChan] and does not go on while that channel
    is open; once it is closed, if [d.vServer] is still [nil], [Dial]
    returns the error "fail to prepare domain" and no connection, having
    opened no socket. *)
Theorem Dial_pending (h : Host) (dest : Destination) (w : world) :
  NetAddr dest = currentServer (dialer w) ->
  vServer (dialer w) = None ->
  (exists k, Dial h dest w = Parked (resolveChan (dialer w)) k)
  /\ (forall w' : world,
        closed w' (resolveChan (dialer w)) = false ->
        wake (Dial h dest w) w' = None)
  /\ (forall w' : world,
        closed w' (resolveChan (dialer w)) = true ->
        vServer (dialer w') = None ->
        wake (Dial h dest w) w'
        = Some (Ended (Done (Fail (ErrPrepare (currentServer (dialer w')))))
                      w' [])).
Proof.
  intros Haddr Hv. unfold Dial. rewrite Haddr, String.eqb_refl, Hv.
  split; [by eexists|]. split; intros w' Hc; cbn [wake]; rewrite Hc; [done|].
  intros Hv'. unfold run. rewrite run_bind. cbn [getDialer]. by rewrite Hv'.
Qed.

Lemma Dial_pending_witness :
  wake (Dial (Sample.host true None) Sample.dest Sample.pending) Sample.pending
  = None
  /\ wake (Dial (Sample.host true None) Sample.dest Sample.pending) Sample.gaveUp
     = Some (Ended (Done (Fail (ErrPrepare Sample.server))) Sample.gaveUp []).
Proof.
  destruct (Dial_pending (Sample.host true None) Sample.dest Sample.pending)
    as (_ & Hblock & Hfail); try reflexivity.
  split.
  - apply Hblock. vm_compute. reflexivity.
  - apply Hfail; vm_compute; reflexivity.
Defined.

(** ** Preparation *)

Section Prepare.

Variables (net : nat -> Resolver) (closeCh : nat -> bool).
Variable domainName : string.

Lemma calls_cons (p : event -> bool) (e : event) (t : list event) :
  calls p (e :: t) = ((if p e then 1 else 0) + calls p t)%nat.
Proof. unfold calls. cbn. by destruct (p e). Qed.

(** The loop returns; it closes no channel and leaves [d.resolveChan]
    and the channels alone; [d.vServer] is what its stores make it. *)
Lemma prepareLoop_returns (maxRetry : nat) : forall (n : nat) (w : world),
  exists (w' : world) (t : list event),
    prepareLoop net closeCh domainName maxRetry n w = (Done tt, w', t)
    /\ chans w' = chans w
    /\ resolveChan (dialer w') = resolveChan (dialer w)
    /\ vServer (dialer w') = stored t (vServer (dialer w))
    /\ calls isCloseChan t = 0%nat
    /\ (calls isLookupAddr t <= maxRetry)%nat
    /\ (calls isSetVServer t <= 1)%nat.
Proof.
  induction maxRetry as [|m IH]; intros n w.
  - exists w, []. cbn. repeat split; lia.
  - cbn [prepareLoop]. run_M.
    destruct (lookupAddr_returns (net n) (preferIPv6 (dialer w)) domainName)
      as (x & -> & _).
    destruct x as [rs|err].
    + eexists _, _. split; [reflexivity|]. cbn. repeat split; lia.
    + destruct (closeCh n).
      * eexists _, _. split; [reflexivity|]. cbn. repeat split; lia.
      * destruct (IH (S n) w) as (w' & t & Hrun & Hc & Hr & Hv & H1 & H2 & H3).
        rewrite Hrun. eexists _, _. split; [reflexivity|].
        cbn [app stored]. rewrite !calls_cons. cbn. repeat split; (done || lia).
Qed.

(** While every lookup fails and the cancel signal stays silent, the
    loop makes [maxRetry] rounds of a lookup and a 2 second wait, and
    changes nothing. *)
Lemma prepareLoop_all_fail (maxRetry : nat) : forall (n : nat) (w : world),
  (forall k, exists e,
      lookupAddr (net k) (preferIPv6 (dialer w)) domainName = Done (Fail e)) ->
  (forall k, closeCh k = false) ->
  prepareLoop net closeCh domainName maxRetry n w
  = (Done tt, w, concat (replicate maxRetry [EvLookupAddr domainName; EvAfter])).
Proof.
  induction maxRetry as [|m IH]; intros n w Hfail Hquiet; [done|].
  cbn [prepareLoop]. run_M.
  destruct (Hfail n) as (e & ->). rewrite Hquiet.
  rewrite IH by done. reflexivity.
Qed.

End Prepare.

(** C5.  A run of [PrepareDomain] on a dialer whose readiness channel has
    been made and is still open returns, whatever the resolver answers and
    whenever the cancel signal fires; it closes that channel once, as its
    last step and so after any store of an endpoint, and every call parked
    on the channel then goes on, on the memory that the run has left. *)
Theorem PrepareDomain_closes_once
    (net : nat -> Resolver) (closeCh : nat -> bool)
    (domainName : string) (prefIPv6 : bool) (w : world) (c : chan) :
  resolveChan (dialer w) = Some c ->
  chans w !! c = Some false ->
  exists (w' : world) (pre : list event),
    PrepareDomain net closeCh domainName prefIPv6 w
    = (Done tt, w', pre ++ [EvCloseChan (Some c)])
    /\ calls isCloseChan pre = 0%nat
    /\ (calls isSetVServer pre <= 1)%nat
    /\ vServer (dialer w') = stored pre (vServer (dialer w))
    /\ closed w' (Some c) = true
    /\ forall (A : Type) (k : M A),
         wake (Parked (Some c) k) w' = Some (run k w').
Proof.
  intros Hc Hopen. unfold PrepareDomain. run_M. unfold defer.
  set (w1 := {| dialer := setPreferIPv6 prefIPv6
                            (setCurrentServer domainName (dialer w));
                chans := chans w |}).
  destruct (prepareLoop_returns net closeCh domainName 10 0%nat w1)
    as (w' & t & -> & Hch & Hr & Hv & H1 & _ & H3).
  cbn [dialer setPreferIPv6 setCurrentServer resolveChan]. rewrite Hc.
  unfold closeChan. rewrite Hch. cbn [chans w1]. rewrite Hopen.
  eexists _, t. split; [reflexivity|].
  assert (Hcl : closed {| dialer := dialer w'; chans := <[c:=true]> (chans w) |}
                       (Some c) = true).
  { cbn. by rewrite lookup_insert_eq. }
  repeat split; try done.
  intros A k. cbn [wake]. by rewrite Hcl.
Qed.

Lemma PrepareDomain_closes_once_witness :
  exists (w' : world) (pre : list event),
    PrepareDomain Sample.flaky Sample.quiet Sample.server false Sample.pending
    = (Done tt, w', pre ++ [EvCloseChan (Some 0%nat)])
    /\ calls isCloseChan pre = 0%nat
    /\ closed w' (Some 0%nat) = true.
Proof.
  destruct (PrepareDomain_closes_once
              Sample.flaky Sample.quiet Sample.server false Sample.pending 0%nat)
    as (w' & pre & Hrun & Hpre & _ & _ & Hclosed & _).
  - reflexivity.
  - vm_compute. reflexivity.
  - exists w', pre. split; [exact Hrun|]. split; [exact Hpre | exact Hclosed].
Defined.

(** C6.  When every lookup fails and the cancel signal never fires,
    [PrepareDomain] returns after exactly 10 calls of [lookupAddr], each
    followed by the 2 second wait; it stores no endpoint, so [d.vServer]
    is as before, and closes the readiness channel exactly once, at the
    end. *)
Theorem PrepareDomain_gives_up_after_10
    (net : nat -> Resolver) (closeCh : nat -> bool)
    (domainName : string) (prefIPv6 : bool) (w : world) (c : chan) :
  resolveChan (dialer w) = Some c ->
  chans w !! c = Some false ->
  (forall n, exists e,
      lookupAddr (net n) prefIPv6 domainName = Done (Fail e)) ->
  (forall n, closeCh n = false) ->
  exists (w' : world) (t : list event),
    PrepareDomain net closeCh domainName prefIPv6 w = (Done tt, w', t)
    /\ t = concat (replicate 10 [EvLookupAddr domainName; EvAfter])
           ++ [EvCloseChan (Some c)]
    /\ calls isLookupAddr t = 10%nat
    /\ calls isSetVServer t = 0%nat
    /\ calls isCloseChan t = 1%nat
    /\ vServer (dialer w') = vServer (dialer w)
    /\ closed w' (Some c) = true.
Proof.
  intros Hc Hopen Hfail Hquiet. unfold PrepareDomain. run_M. unfold defer.
  rewrite prepareLoop_all_fail by done.
  cbn [dialer setPreferIPv6 setCurrentServer resolveChan]. rewrite Hc.
  unfold closeChan. cbn [chans]. rewrite Hopen.
  eexists _, _. split; [reflexivity|].
  repeat split. cbn. by rewrite lookup_insert_eq.
Qed.

Lemma PrepareDomain_gives_up_after_10_witness :
  exists (w' : world) (t : list event),
    PrepareDomain Sample.dead Sample.quiet Sample.server false Sample.pending
    = (Done tt, w', t)
    /\ calls isLookupAddr t = 10%nat
    /\ vServer (dialer w') = None.
Proof.
  destruct (PrepareDomain_gives_up_after_10
              Sample.dead Sample.quiet Sample.server false Sample.pending 0%nat)
    as (w' & t & Hrun & _ & Hten & _ & _ & Hv & _).
  - reflexivity.
  - vm_compute. reflexivity.
  - intros n. exists (ErrExternal 1). reflexivity.
  - intros n. reflexivity.
  - exists w', t. split; [exact Hrun|]. split; [exact Hten | exact Hv].
Defined.


(** ** Around the claims *)

(** [PrepareResolveChan] leaves [d.resolveChan] on a channel that did not
    exist before and is open: the state a run of [PrepareDomain] starts
    from. *)
Lemma PrepareResolveChan_opens (w : world) :
  exists (c : chan) (w' : world),
    PrepareResolveChan w = (Done tt, w', [])
    /\ resolveChan (dialer w') = Some c
    /\ chans w' !! c = Some false
    /\ chans w !! c = None.
Proof.
  exists (fresh (dom (chans w))). eexists. split; [reflexivity|].
  cbn. split; [done|]. split; [by rewrite lookup_insert_eq|].
  apply not_elem_of_dom, is_fresh.
Qed.

(** When no descriptor can be had, [Dial] to the prepared server returns
    the error of [getFd]; [fdConn] and [NextIP] are not called. *)
Lemma Dial_prepared_no_descriptor
    (h : Host) (dest : Destination) (w : world) (r : resolved)
    (err : error) (ts : list event) :
  NetAddr dest = currentServer (dialer w) ->
  vServer (dialer w) = Some r ->
  getFd h (destNetwork dest) w = (Done (Fail err), w, ts) ->
  Dial h dest w = Ended (Done (Fail err)) w ts
  /\ calls isNextIP ts = 0%nat.
Proof.
  intros Haddr Hv Hfd. split.
  - unfold Dial. rewrite Haddr, String.eqb_refl, Hv.
    unfold run, dialPrepared. rewrite run_bind, Hfd.
    run_M. by rewrite app_nil_r.
  - destruct (getFd_returns h (destNetwork dest) w) as (x & t & Hg & Ht).
    congruence.
Qed.

(** The example of the specification: ["proxy.example:443"] resolves to
    [[2001:db8::1, 93.184.216.34]] with [preferIPv6 = false]; the stored
    order is [[93.184.216.34, 2001:db8::1]], the first dial uses
    93.184.216.34, after a [NextIP] the current address is 2001:db8::1,
    and a second [NextIP] within 5 seconds leaves it there. *)
Example proxy_example :
  lookupAddr (Sample.answering [Sample.ip6_1; Sample.ip4_1]) false Sample.server
  = Done (Val Sample.pair)
  /\ currentIP Sample.pair = Done Sample.ip4_1
  /\ NextIP Sample.t0 Sample.pair = Done Sample.pairSwitched
  /\ currentIP Sample.pairSwitched = Done Sample.ip6_1
  /\ NextIP (Sample.t0 + 3 * Second) Sample.pairSwitched
     = Done Sample.pairSwitched.
Proof. repeat split. Qed.


(** * Further properties *)

(** ** Resolution *)

(** A fresh endpoint: cursor at 0 and no switch recorded. *)
Lemma lookupAddr_fresh
    (rv : Resolver) (p : bool) (addr : string) (rs : resolved) :
  lookupAddr rv p addr = Done (Val rs) ->
  ipIdx rs = 0 /\ lastSwitched rs = zeroTime.
Proof.
  unfold lookupAddr.
  destruct (SplitHostPort rv addr) as [[host port]|e0]; [|done].
  destruct (LookupPort rv port) as [portnum|e1]; [|done].
  destruct (LookupIPAddr rv host) as [addrs|e2]; [|done].
  destruct (len addrs =? 0); [done|].
  rewrite revertIPs_spec. cbn [obind]. by intros [= <-].
Qed.

(** X1.  [lookupAddr] returns an error in four cases and no other: the
    address does not split, the port does not resolve, the host lookup
    fails (each error handed up as it is), or the lookup answers no
    address, which gives "domain ... Failed to resolve" with the whole
    [host:port] string. *)
Theorem lookupAddr_error
    (rv : Resolver) (p : bool) (addr : string) (e : error) :
  lookupAddr rv p addr = Done (Fail e) <->
  SplitHostPort rv addr = Fail e
  \/ exists host port,
       SplitHostPort rv addr = Val (host, port)
       /\ (LookupPort rv port = Fail e
           \/ exists portnum,
                LookupPort rv port = Val portnum
                /\ (LookupIPAddr rv host = Fail e
                    \/ (LookupIPAddr rv host = Val []
                        /\ e = ErrResolveEmpty addr))).
Proof.
  unfold lookupAddr.
  destruct (SplitHostPort rv addr) as [[host port]|e0] eqn:Hs.
  2:{ split; [intros [= ->]; by left|].
      intros [[= ->]|(h & q & [=] & _)]; done. }
  destruct (LookupPort rv port) as [portnum|e1] eqn:Hp.
  2:{ split.
      - intros [= ->]. right. exists host, port. split; [done|]. by left.
      - intros [[=]|(h & q & [= <- <-] & [Hq|(n & Hq & _)])]; congruence. }
  destruct (LookupIPAddr rv host) as [addrs|e2] eqn:Hi.
  2:{ split.
      - intros [= ->]. right. exists host, port. split; [done|].
        right. exists portnum. split; [done|]. by left.
      - intros [[=]|(h & q & [= <- <-] & [Hq|(n & _ & [Hq|[Hq _]])])];
          congruence. }
  destruct addrs as [|a addrs].
  - change (len (@nil IPAddr) =? 0) with true. cbv iota. split.
    + intros [= <-]. right. exists host, port. split; [done|].
      right. exists portnum. split; [done|]. by right.
    + intros [[=]|(h & q & [= <- <-] & [Hq|(n & _ & [Hq|[_ ->]])])];
        congruence.
  - destruct (Z.eqb_spec (len (a :: addrs)) 0) as [H0|_]; [discriminate|].
    rewrite revertIPs_spec. cbn [obind]. split; [intros [=]|].
    intros [[=]|(h & q & [= <- <-] & [Hq|(n & _ & [Hq|[Hq _]])])];
      congruence.
Qed.

Lemma lookupAddr_error_witness :
  lookupAddr (Sample.answering []) false Sample.server
  = Done (Fail (ErrResolveEmpty Sample.server)).
Proof.
  apply (lookupAddr_error (Sample.answering []) false Sample.server
           (ErrResolveEmpty Sample.server)).
  right. exists "proxy.example"%string, "443"%string.
  split; [reflexivity|]. right. exists 443.
  split; [reflexivity|]. right. split; reflexivity.
Defined.

(** X2.  An endpoint that [lookupAddr] returns carries the host and the
    port of the address, the cursor at 0, no recorded switch, and exactly
    the addresses the resolver answered, none dropped or repeated; when
    the caller prefers IPv6 they are in the resolver's order. *)
Theorem lookupAddr_keeps_answer
    (rv : Resolver) (p : bool) (addr : string) (rs : resolved) :
  lookupAddr rv p addr = Done (Val rs) ->
  exists host port addrs,
    SplitHostPort rv addr = Val (host, port)
    /\ LookupPort rv port = Val (Port rs)
    /\ LookupIPAddr rv host = Val addrs
    /\ domain rs = host
    /\ ipIdx rs = 0
    /\ lastSwitched rs = zeroTime
    /\ IPs rs ≡ₚ map addrIP addrs
    /\ (p = true -> IPs rs = map addrIP addrs).
Proof.
  unfold lookupAddr.
  destruct (SplitHostPort rv addr) as [[host port]|e0] eqn:Hs; [|done].
  destruct (LookupPort rv port) as [portnum|e1] eqn:Hp; [|done].
  destruct (LookupIPAddr rv host) as [addrs|e2] eqn:Hi; [|done].
  destruct (len addrs =? 0); [done|].
  rewrite revertIPs_spec. cbn [obind]. intros [= <-].
  exists host, port, addrs. cbn [domain IPs Port ipIdx lastSwitched].
  do 6 (split; [done|]). split.
  - destruct (reverts p (map addrIP addrs)); [|done].
    symmetry. apply Permutation_rev.
  - by intros ->.
Qed.

Lemma lookupAddr_keeps_answer_witness :
  exists host port addrs,
    SplitHostPort (Sample.answering [Sample.ip6_1; Sample.ip4_1]) Sample.server
    = Val (host, port)
    /\ LookupIPAddr (Sample.answering [Sample.ip6_1; Sample.ip4_1]) host
       = Val addrs
    /\ IPs Sample.pair ≡ₚ map addrIP addrs.
Proof.
  destruct (lookupAddr_keeps_answer
              (Sample.answering [Sample.ip6_1; Sample.ip4_1]) false
              Sample.server Sample.pair)
    as (host & port & addrs & Hs & _ & Hi & _ & _ & _ & Hperm & _).
  - reflexivity.
  - exists host, port, addrs. split; [exact Hs|]. split; [exact Hi | exact Hperm].
Defined.

(** X3.  The swap loop of [lookupAddr] (lines 144 to 147), run on any
    list, of even or odd length, reads and writes inside the list only and
    leaves it fully reversed; run a second time it restores the list. *)
Theorem revertLoop_round_trip (s : list IP) :
  revertLoop (Z.to_nat (len s / 2)) s = Done (rev s)
  /\ (let! s' := revertLoop (Z.to_nat (len s / 2)) s in
      revertLoop (Z.to_nat (len s' / 2)) s') = Done s.
Proof.
  split; [apply revertLoop_rev|].
  rewrite revertLoop_rev. cbn [obind].
  by rewrite revertLoop_rev, rev_involutive.
Qed.

(** X4.  When the resolver lists its IPv6 addresses in front of its IPv4
    addresses, both present, and the caller does not prefer IPv6, the
    stored list has all IPv4 addresses first and all IPv6 addresses after
    them, each group in the reverse of the resolver's order. *)
Theorem lookupAddr_IPv4_group_first
    (rv : Resolver) (addr host port : string) (portnum : Z)
    (addrs : list IPAddr) (v6s v4s : list IP) :
  SplitHostPort rv addr = Val (host, port) ->
  LookupPort rv port = Val portnum ->
  LookupIPAddr rv host = Val addrs ->
  map addrIP addrs = v6s ++ v4s ->
  v6s <> [] -> v4s <> [] ->
  Forall (fun ip => isV4 ip = false) v6s ->
  Forall (fun ip => isV4 ip = true) v4s ->
  lookupAddr rv false addr
  = Done (Val {| domain := host; IPs := rev v4s ++ rev v6s;
                 Port := portnum; ipIdx := 0; lastSwitched := zeroTime |}).
Proof.
  intros Hs Hp Hi Hmap H6 H4 Hall6 Hall4.
  rewrite (lookupAddr_resolved rv addr host port portnum addrs Hs Hp Hi false)
    by (intros ->; by destruct v6s).
  rewrite Hmap.
  assert (Hlen : (1 <? len (v6s ++ v4s)) = true).
  { apply Z.ltb_lt. unfold len. rewrite length_app.
    destruct v6s, v4s; cbn [length]; (done || lia). }
  assert (Hhead : headIsV4 (v6s ++ v4s) = false).
  { unfold headIsV4. destruct v6s as [|x v6s]; [done|].
    cbn [app head]. by apply Forall_inv in Hall6. }
  assert (Hlast : lastIsV4 (v6s ++ v4s) = true).
  { unfold lastIsV4. destruct v4s as [|y v4s _] using rev_ind; [done|].
    rewrite app_assoc, last_snoc.
    by apply Forall_app in Hall4 as [_ Hy%Forall_inv]. }
  assert (Hrev : reverts false (v6s ++ v4s) = true).
  { unfold reverts. by rewrite Hlen, Hhead, Hlast. }
  by rewrite Hrev, rev_app_distr.
Qed.

Lemma lookupAddr_IPv4_group_first_witness :
  lookupAddr (Sample.answering
                [Sample.ip6_1; Sample.ip6_2; Sample.ip4_1; Sample.ip4_2])
             false Sample.server
  = Done (Val (Sample.endpoint
                 [Sample.ip4_2; Sample.ip4_1; Sample.ip6_2; Sample.ip6_1])).
Proof.
  apply (lookupAddr_IPv4_group_first
           (Sample.answering
              [Sample.ip6_1; Sample.ip6_2; Sample.ip4_1; Sample.ip4_2])
           Sample.server "proxy.example" "443" 443
           (map (fun ip => mkIPAddr ip "")
                [Sample.ip6_1; Sample.ip6_2; Sample.ip4_1; Sample.ip4_2])
           [Sample.ip6_1; Sample.ip6_2] [Sample.ip4_1; Sample.ip4_2]);
    try reflexivity; try discriminate.
  - repeat constructor.
  - repeat constructor.
Defined.

(** ** Rotation *)

(** X5.  [NextIP] returns for every endpoint, whatever its cursor; it
    never changes the host, the addresses or the port; and it either
    leaves the endpoint as it was, or records [now], being called 5
    seconds or more after the last recorded switch on a list of two
    addresses or more, and leaves a cursor inside the list. *)
Theorem NextIP_frame (now : Time) (r : resolved) :
  exists r',
    NextIP now r = Done r'
    /\ domain r' = domain r /\ IPs r' = IPs r /\ Port r' = Port r
    /\ (r' = r
        \/ (lastSwitched r' = now
            /\ Second * 5 <= now - lastSwitched r
            /\ 2 <= len (IPs r)
            /\ 0 <= ipIdx r' < len (IPs r))).
Proof.
  destruct (Z.lt_ge_cases (len (IPs r)) 2) as [Hlen|Hlen];
    [exists r; split; [apply NextIP_noop; by left | by auto]|].
  destruct (Z.lt_ge_cases (now - lastSwitched r) (Second * 5)) as [Hgap|Hgap];
    [exists r; split; [apply NextIP_noop; by right | by auto]|].
  rewrite NextIP_switch by done. eexists; split; [reflexivity|].
  cbn [domain IPs Port ipIdx lastSwitched set_switch].
  do 3 (split; [done|]). right. do 3 (split; [done|]).
  pose proof (Z.mod_pos_bound (ipIdx r + 1) 256 ltac:(lia)).
  pose proof (Z.mod_pos_bound (len (IPs r)) 256 ltac:(lia)).
  pose proof (Z.mod_le (len (IPs r)) 256 ltac:(lia) ltac:(lia)).
  unfold uint8. destruct (Z.leb_spec (len (IPs r) mod 256) ((ipIdx r + 1) mod 256)); lia.
Qed.

(** X6.  On a list of 2 to 255 addresses the calls that are not throttled
    are a round robin: from the cursor at 0, [n] of them leave the cursor
    at [n mod len(IPs)], so every address is reached and [len(IPs)] calls
    bring the cursor back to 0. *)
Theorem rotations_round_robin (times : list Time) (r : resolved) :
  2 <= len (IPs r) < 256 ->
  ipIdx r = 0 ->
  spaced (lastSwitched r) times ->
  exists r', rotations times r = Done r'
             /\ IPs r' = IPs r
             /\ ipIdx r' = Z.of_nat (length times) mod len (IPs r).
Proof.
  intros Hlen H0 Hsp.
  assert (Hgen : forall (n : nat) (r1 : resolved),
             IPs r1 = IPs r ->
             ipIdx r1 = cursorAfter (len (IPs r)) n ->
             spaced (lastSwitched r1) times ->
             exists r', rotations times r1 = Done r'
                        /\ IPs r' = IPs r
                        /\ ipIdx r' = cursorAfter (len (IPs r))
                                                  (n + length times)).
  { clear H0 Hsp. induction times as [|now times IH]; intros n r1 Hips Hr1 Hsp.
    - exists r1. by rewrite Nat.add_0_r.
    - destruct Hsp as [Hgap Hsp]. cbn [rotations].
      rewrite NextIP_switch by (rewrite ?Hips; lia). cbn [obind].
      cbn [length]. rewrite <- Nat.add_succ_comm.
      apply IH; [by cbn | | by cbn].
      cbn [ipIdx set_switch]. rewrite Hips, Hr1.
      replace (uint8 (len (IPs r))) with (len (IPs r))
        by (unfold uint8; by rewrite Z.mod_small by lia).
      apply cursorAfter_next. lia. }
  destruct (Hgen 0%nat r) as (r' & Hrun & Hips & Hr'); [done | | done |].
  - rewrite H0. unfold cursorAfter.
    destruct (Z.leb_spec (len (IPs r)) 1); [done|]. by rewrite Zmod_0_l.
  - exists r'. split; [done|]. split; [done|].
    rewrite Hr'. unfold cursorAfter.
    destruct (Z.leb_spec (len (IPs r)) 1); [lia | done].
Qed.

Lemma rotations_round_robin_witness :
  exists r',
    rotations [Sample.t0; Sample.t0 + 5 * Second] Sample.pair = Done r'
    /\ ipIdx r' = 0.
Proof.
  destruct (rotations_round_robin
              [Sample.t0; Sample.t0 + 5 * Second] Sample.pair)
    as (r' & Hrun & _ & Hr').
  - vm_compute. split; discriminate || reflexivity.
  - reflexivity.
  - repeat split; vm_compute; discriminate.
  - exists r'. split; [exact Hrun | exact Hr'].
Defined.

(** X7.  The first [NextIP] on an endpoint that [lookupAddr] has just
    returned, with two addresses or more, is never throttled, however
    late it comes: the time since the zero instant does not fit a
    [Duration], and the saturated difference still counts as 5 seconds or
    more.  The call records [now] and moves the cursor to 1 (to 0 when
    [len(IPs) mod 256 <= 1]). *)
Theorem NextIP_first_call
    (rv : Resolver) (p : bool) (addr : string) (rs : resolved) (now : Time) :
  lookupAddr rv p addr = Done (Val rs) ->
  2 <= len (IPs rs) ->
  Second * 5 <= now ->
  NextIP now rs
  = Done (set_switch rs (if uint8 (len (IPs rs)) <=? 1 then 0 else 1) now).
Proof.
  intros Hrs Hlen Hnow.
  destruct (lookupAddr_fresh rv p addr rs Hrs) as [H0 Hz].
  rewrite NextIP_switch by (rewrite ?Hz; unfold zeroTime; lia).
  by rewrite H0.
Qed.

Lemma NextIP_first_call_witness :
  maxDuration < Sample.t0 - zeroTime
  /\ NextIP Sample.t0 Sample.pair = Done (set_switch Sample.pair 1 Sample.t0).
Proof.
  split; [reflexivity|].
  apply (NextIP_first_call
           (Sample.answering [Sample.ip6_1; Sample.ip4_1]) false Sample.server
           Sample.pair Sample.t0).
  - reflexivity.
  - vm_compute. discriminate.
  - vm_compute. discriminate.
Defined.

(** A call either changes nothing or records [now], 5 seconds or more
    after the last recorded switch. *)
Lemma NextIP_same_or_later (now : Time) (r : resolved) :
  exists r',
    NextIP now r = Done r'
    /\ (r' = r
        \/ (lastSwitched r' = now /\ Second * 5 <= now - lastSwitched r)).
Proof.
  destruct (Z.lt_ge_cases (len (IPs r)) 2) as [Hlen|Hlen];
    [exists r; split; [apply NextIP_noop; by left | by left]|].
  destruct (Z.lt_ge_cases (now - lastSwitched r) (Second * 5)) as [Hgap|Hgap];
    [exists r; split; [apply NextIP_noop; by right | by left]|].
  rewrite NextIP_switch by done. eexists; split; [reflexivity|]. by right.
Qed.

(** After any calls made no later than [hi], the switches among them are
    5 seconds apart and the first one 5 seconds after the recorded one. *)
Lemma switches_after_switch (hi : Time) (times : list Time) :
  forall r : resolved,
    Forall (fun t => t <= hi) times ->
    Z.of_nat (switches times r) * (Second * 5)
    <= Z.max 0 (hi - lastSwitched r).
Proof.
  induction times as [|now times IH]; intros r Hhi; [cbn; lia|].
  apply Forall_cons in Hhi as [Hnow Hhi]. cbn [switches].
  destruct (NextIP_same_or_later now r) as (r' & -> & [->|[Hlast Hgap]]).
  - rewrite Z.eqb_refl. by apply IH.
  - specialize (IH r' Hhi). rewrite Hlast in IH |- *.
    assert (Hpos : 0 < Second * 5) by (unfold Second; lia).
    destruct (Z.eqb_spec now (lastSwitched r)); lia.
Qed.

(** X8.  The throttle bounds the rate of switching: of any number of
    [NextIP] calls made at instants between [lo] and [hi], in any order
    and from any endpoint, at most [1 + (hi - lo) / 5s] switch. *)
Theorem switches_bounded (lo hi : Time) (times : list Time) (r : resolved) :
  lo <= hi ->
  Forall (fun t => lo <= t <= hi) times ->
  Z.of_nat (switches times r) <= 1 + (hi - lo) / (Second * 5).
Proof.
  intros Hlohi.
  assert (Hpos : 0 < Second * 5) by (unfold Second; lia).
  assert (Hq : 0 <= (hi - lo) / (Second * 5)) by (apply Z.div_pos; lia).
  revert r. induction times as [|now times IH]; intros r Hwin; [cbn; lia|].
  apply Forall_cons in Hwin as [Hnow Hwin]. cbn [switches].
  destruct (NextIP_same_or_later now r) as (r' & -> & [->|[Hlast Hgap]]).
  - rewrite Z.eqb_refl. by apply IH.
  - assert (Hrest : Z.of_nat (switches times r') <= (hi - lo) / (Second * 5)).
    { apply Z.div_le_lower_bound; [done|].
      assert (Hhi : Forall (fun t => t <= hi) times)
        by (eapply Forall_impl; [exact Hwin | cbn; lia]).
      pose proof (switches_after_switch hi times r' Hhi) as Hr.
      rewrite Hlast in Hr. lia. }
    destruct (Z.eqb_spec (lastSwitched r') (lastSwitched r)); lia.
Qed.

Lemma switches_bounded_witness :
  Z.of_nat (switches [Sample.t0; Sample.t0 + 4 * Second;
                      Sample.t0 + 8 * Second; Sample.t0 + 9 * Second]
                     Sample.pair)
  <= 1 + (Sample.t0 + 9 * Second - Sample.t0) / (Second * 5).
Proof.
  apply (switches_bounded Sample.t0 (Sample.t0 + 9 * Second)).
  - vm_compute. discriminate.
  - repeat constructor; vm_compute; discriminate.
Defined.

(** ** The protected connection, in every outcome *)

(** What [fdConn] returns and does, by the answers of the system. *)
Lemma fdConn_run (h : Host) (ip : IP) (port fd : Z) (w : world) :
  fdConn h ip port fd w
  = (Done (if Protect h fd then
             match unix_Connect h fd (sockaddrOf ip port) with
             | Some err => Fail err
             | None => if os_NewFile h fd then net_FileConn h fd
                       else Fail ErrFdInvalid
             end
           else Fail ErrFailToProtect),
     w,
     EvProtect fd
     :: (if Protect h fd then
           EvConnect fd (sockaddrOf ip port)
           :: match unix_Connect h fd (sockaddrOf ip port) with
              | Some _ => []
              | None => EvNewFile fd
                        :: (if os_NewFile h fd
                            then [EvFileConn fd; EvFileClose fd] else [])
              end
         else [])
     ++ [EvClose fd]).
Proof.
  unfold fdConn, defer, sockaddrOf. rewrite run_bind. cbn [emit].
  destruct (Protect h fd); cbn [negb]; [|done].
  rewrite run_bind. cbn [emit].
  destruct (unix_Connect h fd _); [done|].
  rewrite run_bind. cbn [emit].
  by destruct (os_NewFile h fd).
Qed.

(** X9.  Whatever the system answers, [fdConn] returns, leaves the
    dialer alone, asks [Protect] first and closes the descriptor last and
    once, also when it returns a connection; it calls [unix.Connect] at
    most once, and closes the file it made exactly when it has made
    one. *)
Theorem fdConn_closes_descriptor
    (h : Host) (ip : IP) (port fd : Z) (w : world) :
  exists (x : res Conn) (mid : list event),
    fdConn h ip port fd w = (Done x, w, EvProtect fd :: mid ++ [EvClose fd])
    /\ calls isClose mid = 0%nat
    /\ calls isProtect mid = 0%nat
    /\ (calls isConnect mid <= 1)%nat
    /\ calls isFileClose mid = calls isFileConn mid
    /\ calls isSocket mid = 0%nat
    /\ calls isNextIP mid = 0%nat.
Proof.
  rewrite fdConn_run. eexists _, _. split; [reflexivity|].
  destruct (Protect h fd); [|cbn; repeat split; lia].
  destruct (unix_Connect h fd _); [cbn; repeat split; lia|].
  destruct (os_NewFile h fd); cbn; repeat split; lia.
Qed.

(** X10.  [fdConn] returns a connection exactly when [Protect] accepts
    the descriptor, [unix.Connect] returns no error, [os.NewFile] returns
    a file and [net.FileConn] returns the connection; it has then made
    these four calls in this order, closed the file and then the
    descriptor, and changed nothing in the dialer. *)
Theorem fdConn_connects
    (h : Host) (ip : IP) (port fd : Z) (w : world) (conn : Conn) :
  ((exists (w' : world) (t : list event),
       fdConn h ip port fd w = (Done (Val conn), w', t))
   <-> (Protect h fd = true
        /\ unix_Connect h fd (sockaddrOf ip port) = None
        /\ os_NewFile h fd = true
        /\ net_FileConn h fd = Val conn))
  /\ forall (w' : world) (t : list event),
       fdConn h ip port fd w = (Done (Val conn), w', t) ->
       w' = w
       /\ t = [EvProtect fd; EvConnect fd (sockaddrOf ip port); EvNewFile fd;
               EvFileConn fd; EvFileClose fd; EvClose fd].
Proof.
  rewrite fdConn_run.
  destruct (Protect h fd);
    [|split; [split; [by intros (? & ? & [=]) | by intros [[=] _]]
             | by intros ? ? [=]]].
  destruct (unix_Connect h fd _);
    [split; [split; [by intros (? & ? & [=]) | by intros (_ & [=] & _)]
            | by intros ? ? [=]]|].
  destruct (os_NewFile h fd);
    [|split; [split; [by intros (? & ? & [=]) | by intros (_ & _ & [=] & _)]
             | by intros ? ? [=]]].
  split; [split|].
  - by intros (? & ? & [= -> _ _]).
  - intros (_ & _ & _ & ->). by eexists _, _.
  - by intros ? ? [= _ <- <-].
Qed.

Lemma fdConn_connects_witness :
  fdConn (Sample.host true None) Sample.ip4_1 443 7 Sample.prepared
  = (Done (Val 7), Sample.prepared,
     [EvProtect 7; EvConnect 7 (sockaddrOf Sample.ip4_1 443); EvNewFile 7;
      EvFileConn 7; EvFileClose 7; EvClose 7]).
Proof.
  destruct (fdConn_connects (Sample.host true None) Sample.ip4_1 443 7
              Sample.prepared 7) as [[_ Hrun] Htrace].
  destruct Hrun as (w' & t & Hrun); [repeat split|].
  destruct (Htrace w' t Hrun) as [-> ->]. exact Hrun.
Defined.

(** X11.  Every [unix.Connect] that [fdConn] makes is on its own
    descriptor, to the port it was given, with zone 0 and an address of
    16 bytes that starts with the bytes of [ip]: a 16-byte [ip] is passed
    as it is, a shorter one is followed by zero bytes and not turned into
    an IPv4-mapped address. *)
Theorem fdConn_sockaddr
    (h : Host) (ip : IP) (port fd : Z) (w : world)
    (o : outcome (res Conn)) (w' : world) (t : list event)
    (fd' : Z) (sa : SockaddrInet6) :
  fdConn h ip port fd w = (o, w', t) ->
  EvConnect fd' sa ∈ t ->
  fd' = fd /\ saPort sa = port /\ saZoneId sa = 0
  /\ length (saAddr sa) = 16%nat
  /\ take (length ip) (saAddr sa) = take 16 ip
  /\ drop (length ip) (saAddr sa) = replicate (16 - length ip) x00
  /\ (length ip = 16%nat -> saAddr sa = ip).
Proof.
  rewrite fdConn_run. intros [= _ _ <-] Hin.
  assert (Hsa : fd' = fd /\ sa = sockaddrOf ip port).
  { apply elem_of_cons in Hin as [[=]|Hin].
    apply elem_of_app in Hin as [Hin|Hin];
      [|by apply list_elem_of_singleton in Hin].
    destruct (Protect h fd); [|by apply elem_of_nil in Hin].
    apply elem_of_cons in Hin as [[= -> ->]|Hin]; [done|].
    destruct (unix_Connect h fd _); [by apply elem_of_nil in Hin|].
    apply elem_of_cons in Hin as [[=]|Hin].
    destruct (os_NewFile h fd); [|by apply elem_of_nil in Hin].
    apply elem_of_cons in Hin as [[=]|Hin].
    by apply list_elem_of_singleton in Hin. }
  destruct Hsa as [-> ->]. cbn [sockaddrOf saPort saZoneId saAddr].
  unfold copyAddr. do 3 (split; [done|]).
  destruct (Nat.le_gt_cases (length ip) 16) as [Hle|Hgt].
  - rewrite (take_ge ip 16) by done. split.
    { rewrite length_app, length_replicate. lia. }
    split; [by rewrite take_app_length|].
    split; [by rewrite drop_app_length|].
    intros ->. cbn. by rewrite app_nil_r.
  - replace (16 - length ip)%nat with 0%nat by lia. cbn [replicate].
    rewrite app_nil_r. split; [rewrite length_take; lia|].
    split; [rewrite take_take; f_equal; lia|].
    split; [|lia]. rewrite drop_ge; [done|]. rewrite length_take. lia.
Qed.

Lemma fdConn_sockaddr_witness :
  saAddr (sockaddrOf Sample.ip4_1 443) = Sample.ip4_1.
Proof.
  apply (fdConn_sockaddr (Sample.host true None) Sample.ip4_1 443 7
           Sample.prepared (Done (Val 7)) Sample.prepared
           [EvProtect 7; EvConnect 7 (sockaddrOf Sample.ip4_1 443); EvNewFile 7;
            EvFileConn 7; EvFileClose 7; EvClose 7] 7
           (sockaddrOf Sample.ip4_1 443)).
  - reflexivity.
  - apply list_elem_of_further, list_elem_of_here.
  - reflexivity.
Defined.

(** ** Dial, in every outcome *)

Lemma getFd_run (h : Host) (n : Network) (w : world) :
  exists x : res Z,
    getFd h n w = (Done x, w, socketEvents n)
    /\ (socketEvents n = [] -> x = Fail ErrUnknowNetwork).
Proof. destruct n; by eexists. Qed.

Lemma fdConn_no_socket (h : Host) (ip : IP) (port fd : Z) (w : world) :
  exists (x : res Conn) (t : list event),
    fdConn h ip port fd w = (Done x, w, t)
    /\ List.filter isSocket t = []
    /\ calls isNextIP t = 0%nat
    /\ calls isCurrentIP t = 0%nat
    /\ calls isLookupAddr t = 0%nat.
Proof.
  rewrite fdConn_run. eexists _, _. split; [reflexivity|].
  destruct (Protect h fd); [|done].
  destruct (unix_Connect h fd _); [done|].
  by destruct (os_NewFile h fd).
Qed.

Lemma filter_socketEvents (n : Network) :
  List.filter isSocket (socketEvents n) = socketEvents n.
Proof. by destruct n. Qed.

Lemma calls_socketEvents (p : event -> bool) (n : Network) :
  (forall a b c, p (EvSocket a b c) = false) ->
  calls p (socketEvents n) = 0%nat.
Proof. intros Hp. destruct n; cbn; by rewrite ?Hp. Qed.

Lemma derefVServer_run (w : world) (r : resolved) :
  vServer (dialer w) = Some r -> derefVServer w = (Done r, w, []).
Proof.
  intros Hv. unfold derefVServer. rewrite run_bind. cbn [getDialer].
  by rewrite Hv.
Qed.

Lemma callCurrentIP_run (w : world) (r : resolved) :
  vServer (dialer w) = Some r ->
  callCurrentIP w = (currentIP r, w, [EvCurrentIP]).
Proof.
  intros Hv. unfold callCurrentIP.
  rewrite run_bind, (derefVServer_run w r Hv), run_bind. cbn [emit].
  unfold lift. by destruct (currentIP r).
Qed.

Lemma callNextIP_run (h : Host) (w : world) (r : resolved) :
  vServer (dialer w) = Some r ->
  callNextIP h w
  = match NextIP (time_Now h) r with
    | Done r' => (Done tt, withVServer r' w, [EvNextIP])
    | Panicked => (Panicked, w, [EvNextIP])
    end.
Proof.
  intros Hv. unfold callNextIP.
  rewrite run_bind, (derefVServer_run w r Hv), run_bind. cbn [emit].
  rewrite run_bind. unfold lift at 1.
  by destruct (NextIP (time_Now h) r).
Qed.

Lemma withVServer_same (w : world) (r : resolved) :
  vServer (dialer w) = Some r -> withVServer r w = w.
Proof. destruct w as [[] ?]. cbn. by intros ->. Qed.

(** The connection to the prepared server, by its parts. *)
Lemma dialPrepared_run
    (h : Host) (dest : Destination) (w : world) (r : resolved) :
  vServer (dialer w) = Some r ->
  exists x : res Z,
    getFd h (destNetwork dest) w
    = (Done x, w, socketEvents (destNetwork dest))
    /\ match x with
       | Fail err =>
           dialPrepared h dest w
           = (Done (Fail err), w, socketEvents (destNetwork dest))
       | Val fd =>
           match currentIP r with
           | Panicked =>
               dialPrepared h dest w
               = (Panicked, w, socketEvents (destNetwork dest) ++ [EvCurrentIP])
           | Done ip =>
               exists (cr : res Conn) (tc : list event),
                 fdConn h ip (Port r) fd w = (Done cr, w, tc)
                 /\ match cr with
                    | Val conn =>
                        dialPrepared h dest w
                        = (Done (Val conn), w,
                           socketEvents (destNetwork dest)
                           ++ EvCurrentIP :: tc)
                    | Fail err =>
                        dialPrepared h dest w
                        = match NextIP (time_Now h) r with
                          | Done r' =>
                              (Done (Fail err), withVServer r' w,
                               socketEvents (destNetwork dest)
                               ++ EvCurrentIP :: tc ++ [EvNextIP])
                          | Panicked =>
                              (Panicked, w,
                               socketEvents (destNetwork dest)
                               ++ EvCurrentIP :: tc ++ [EvNextIP])
                          end
                    end
           end
       end.
Proof.
  intros Hv.
  destruct (getFd_run h (destNetwork dest) w) as (x & Hfd & _).
  exists x. split; [done|]. unfold dialPrepared. rewrite run_bind, Hfd.
  destruct x as [fd|err]; [|run_M; by rewrite app_nil_r].
  rewrite run_bind, (callCurrentIP_run w r Hv).
  destruct (currentIP r) as [ip|]; [|done].
  rewrite run_bind, (derefVServer_run w r Hv), run_bind.
  destruct (fdConn_no_socket h ip (Port r) fd w) as (cr & tc & Hc & _).
  exists cr, tc. split; [done|]. rewrite Hc.
  destruct cr as [conn|err]; [run_M; by rewrite !app_nil_r|].
  rewrite run_bind, (callNextIP_run h w r Hv).
  destruct (NextIP (time_Now h) r); run_M; reflexivity.
Qed.

(** The socket calls of a connection to the prepared server. *)
Lemma dialPrepared_sockets
    (h : Host) (dest : Destination) (w : world) (r : resolved)
    (o : outcome (res Conn)) (w' : world) (t : list event) :
  vServer (dialer w) = Some r ->
  dialPrepared h dest w = (o, w', t) ->
  List.filter isSocket t = socketEvents (destNetwork dest).
Proof.
  intros Hv Hrun.
  destruct (dialPrepared_run h dest w r Hv) as (x & _ & Hx).
  destruct x as [fd|err].
  - destruct (currentIP r) as [ip|].
    + destruct Hx as (cr & tc & Hc & Hd).
      destruct (fdConn_no_socket h ip (Port r) fd w) as (cr' & tc' & Hc' & Hs & _).
      assert (tc' = tc) as -> by congruence.
      destruct cr as [conn|e].
      * rewrite Hd in Hrun. injection Hrun as _ _ <-.
        rewrite List.filter_app, filter_socketEvents. cbn [List.filter isSocket].
        by rewrite Hs, app_nil_r.
      * destruct (NextIP (time_Now h) r); rewrite Hd in Hrun;
          injection Hrun as _ _ <-;
          rewrite List.filter_app, filter_socketEvents;
          cbn [List.filter isSocket]; rewrite List.filter_app, Hs; cbn;
          by rewrite app_nil_r.
    + rewrite Hx in Hrun. injection Hrun as _ _ <-.
      rewrite List.filter_app, filter_socketEvents. cbn. by rewrite app_nil_r.
  - rewrite Hx in Hrun. injection Hrun as _ _ <-. apply filter_socketEvents.
Qed.

(** A fresh endpoint has a first address. *)
Lemma lookupAddr_first (rv : Resolver) (p : bool) (addr : string)
    (rs : resolved) :
  lookupAddr rv p addr = Done (Val rs) ->
  exists ip, index (IPs rs) 0 = Done ip /\ head (IPs rs) = Some ip
             /\ currentIP rs = Done ip.
Proof.
  intros Hrs.
  destruct (lookupAddr_returns rv p addr) as (x & Hx & Hin).
  rewrite Hrs in Hx. injection Hx as <-. specialize (Hin rs eq_refl).
  destruct (lookupAddr_fresh rv p addr rs Hrs) as [H0 _].
  rewrite H0 in Hin.
  destruct (index_Done_lt (IPs rs) 0 Hin) as (ip & Hidx & Hl).
  exists ip. split; [done|]. split; [by rewrite head_lookup|].
  unfold currentIP. rewrite H0.
  destruct (Z.ltb_spec 0 (len (IPs rs))); [done | lia].
Qed.

(** Any other destination, by its parts. *)
Lemma dialFresh_run (h : Host) (dest : Destination) (w : world) :
  exists x : res resolved,
    lookupAddr (resolver h) (preferIPv6 (dialer w)) (NetAddr dest) = Done x
    /\ match x with
       | Fail err =>
           dialFresh h dest w
           = (Done (Fail err), w, [EvLookupAddr (NetAddr dest)])
       | Val rs =>
           exists fdr : res Z,
             getFd h (destNetwork dest) w
             = (Done fdr, w, socketEvents (destNetwork dest))
             /\ match fdr with
                | Fail err =>
                    dialFresh h dest w
                    = (Done (Fail err), w,
                       EvLookupAddr (NetAddr dest)
                       :: socketEvents (destNetwork dest))
                | Val fd =>
                    exists (ip : IP) (cr : res Conn) (tc : list event),
                      head (IPs rs) = Some ip
                      /\ fdConn h ip (Port rs) fd w = (Done cr, w, tc)
                      /\ dialFresh h dest w
                         = (Done cr, w,
                            EvLookupAddr (NetAddr dest)
                            :: socketEvents (destNetwork dest) ++ tc)
                end
       end.
Proof.
  destruct (lookupAddr_returns (resolver h) (preferIPv6 (dialer w))
              (NetAddr dest)) as (x & Hx & _).
  assert (Hhead : dialFresh h dest w
                  = match x with
                    | Fail err =>
                        (Done (Fail err), w, [EvLookupAddr (NetAddr dest)])
                    | Val rs =>
                        match (getFd h (destNetwork dest)
                               ≫= fun fd : res Z =>
                                    match fd with
                                    | Fail err => mret (Fail err)
                                    | Val fd =>
                                        ip ← lift (index (IPs rs) 0);
                                        fdConn h ip (Port rs) fd
                                    end) w with
                        | (o, w', t) =>
                            (o, w', EvLookupAddr (NetAddr dest) :: t)
                        end
                    end).
  { unfold dialFresh. rewrite run_bind. cbn [getDialer].
    rewrite run_bind. cbn [emit]. rewrite run_bind. unfold lift at 1.
    rewrite Hx. destruct x as [rs|err]; [|reflexivity].
    by destruct ((getFd h (destNetwork dest) ≫= _) w) as [[? ?] ?]. }
  exists x. split; [done|]. rewrite Hhead. clear Hhead.
  destruct x as [rs|err]; [|reflexivity].
  destruct (getFd_run h (destNetwork dest) w) as (fdr & Hfd & _).
  exists fdr. split; [done|]. rewrite run_bind, Hfd.
  destruct fdr as [fd|err]; [|run_M; by rewrite app_nil_r].
  destruct (lookupAddr_first _ _ _ rs Hx) as (ip & Hidx & Hhead & _).
  destruct (fdConn_no_socket h ip (Port rs) fd w) as (cr & tc & Hc & _).
  exists ip, cr, tc. split; [done|]. split; [done|].
  rewrite run_bind. unfold lift at 1. rewrite Hidx, Hc.
  reflexivity.
Qed.

Lemma dialFresh_sockets (h : Host) (dest : Destination) (w : world)
    (o : outcome (res Conn)) (w' : world) (t : list event) :
  dialFresh h dest w = (o, w', t) ->
  List.filter isSocket t = []
  \/ List.filter isSocket t = socketEvents (destNetwork dest).
Proof.
  intros Hrun. destruct (dialFresh_run h dest w) as (x & _ & Hx).
  destruct x as [rs|err].
  - destruct Hx as (fdr & _ & Hf). destruct fdr as [fd|err].
    + destruct Hf as (ip & cr & tc & _ & Hc & Hd).
      destruct (fdConn_no_socket h ip (Port rs) fd w) as (cr' & tc' & Hc' & Hs & _).
      assert (tc' = tc) as -> by congruence.
      rewrite Hd in Hrun. injection Hrun as _ _ <-. right.
      cbn [List.filter isSocket].
      by rewrite List.filter_app, filter_socketEvents, Hs, app_nil_r.
    + rewrite Hf in Hrun. injection Hrun as _ _ <-. right.
      cbn [List.filter isSocket]. apply filter_socketEvents.
  - rewrite Hx in Hrun. injection Hrun as _ _ <-. by left.
Qed.

(** X12.  Whichever way a call of [Dial] ends, at once or after it was
    parked, with a result or a panic, it has made no socket call or one,
    and that one is the [AF_INET6] call for the network of the
    destination: stream and TCP, or datagram and UDP; for any other
    network it has made none. *)
Theorem Dial_sockets
    (h : Host) (dest : Destination) (w w1 : world)
    (o : outcome (res Conn)) (w' : world) (t : list event) :
  wake (Dial h dest w) w1 = Some (Ended o w' t) ->
  List.filter isSocket t = []
  \/ List.filter isSocket t = socketEvents (destNetwork dest).
Proof.
  unfold Dial.
  destruct (String.eqb (NetAddr dest) (currentServer (dialer w))).
  - destruct (vServer (dialer w)) as [r|] eqn:Hv.
    + cbn [wake]. unfold run.
      destruct (dialPrepared h dest w) as [[o0 w0] t0] eqn:Hrun.
      intros [= _ _ <-]. right. by eapply dialPrepared_sockets.
    + cbn [wake]. destruct (closed w1 _); [|done]. unfold run.
      rewrite run_bind. cbn [getDialer].
      destruct (vServer (dialer w1)) as [r1|] eqn:Hv1.
      * destruct (dialPrepared h dest w1) as [[o0 w0] t0] eqn:Hrun.
        intros [= _ _ <-]. right.
        by eapply dialPrepared_sockets.
      * intros [= _ _ <-]. by left.
  - cbn [wake]. unfold run.
    destruct (dialFresh h dest w) as [[o0 w0] t0] eqn:Hrun.
    intros [= _ _ <-]. by eapply dialFresh_sockets.
Qed.

Lemma Dial_sockets_witness :
  List.filter isSocket
    ([EvSocket AF_INET6 SOCK_STREAM IPPROTO_TCP]
     ++ EvCurrentIP
        :: [EvProtect 7; EvConnect 7 (sockaddrOf Sample.ip4_1 443);
            EvClose 7]
        ++ [EvNextIP])
  = []
  \/ List.filter isSocket
       ([EvSocket AF_INET6 SOCK_STREAM IPPROTO_TCP]
        ++ EvCurrentIP
           :: [EvProtect 7; EvConnect 7 (sockaddrOf Sample.ip4_1 443);
               EvClose 7]
           ++ [EvNextIP])
     = socketEvents Network_TCP.
Proof.
  apply (Dial_sockets (Sample.host true (Some (ErrExternal 111))) Sample.dest
           Sample.prepared Sample.prepared
           (Done (Fail (ErrExternal 111)))
           (withVServer Sample.pairSwitched Sample.prepared)).
  reflexivity.
Defined.

(** X13.  [Dial] to a destination other than the prepared server never
    parks and never panics; it looks the destination up first, with the
    preference left by the last preparation, and leaves the dialer, its
    rotation state included, as it was; it calls neither [currentIP] nor
    [NextIP].  A failed lookup is returned as it is with nothing else
    done, a failed [getFd] is returned with no connection tried, and
    otherwise the connection goes to the first address of the answer and
    its result is the result of [Dial]. *)
Theorem Dial_other_destination (h : Host) (dest : Destination) (w : world) :
  NetAddr dest <> currentServer (dialer w) ->
  exists (x : res Conn) (t : list event),
    Dial h dest w = Ended (Done x) w (EvLookupAddr (NetAddr dest) :: t)
    /\ calls isNextIP t = 0%nat
    /\ calls isCurrentIP t = 0%nat
    /\ calls isLookupAddr t = 0%nat
    /\ match lookupAddr (resolver h) (preferIPv6 (dialer w)) (NetAddr dest) with
       | Panicked => False
       | Done (Fail err) => x = Fail err /\ t = []
       | Done (Val rs) =>
           match getFd h (destNetwork dest) w with
           | (Done (Val fd), _, ts) =>
               exists (ip : IP) (tc : list event),
                 head (IPs rs) = Some ip
                 /\ fdConn h ip (Port rs) fd w = (Done x, w, tc)
                 /\ t = ts ++ tc
           | (Done (Fail err), _, ts) => x = Fail err /\ t = ts
           | (Panicked, _, _) => False
           end
       end.
Proof.
  intros Hne. unfold Dial.
  destruct (String.eqb_spec (NetAddr dest) (currentServer (dialer w)));
    [done|].
  unfold run. destruct (dialFresh_run h dest w) as (x & Hx & Hd).
  rewrite Hx. destruct x as [rs|err].
  - destruct Hd as (fdr & Hfd & Hf). rewrite Hfd.
    destruct fdr as [fd|err].
    + destruct Hf as (ip & cr & tc & Hhead & Hc & ->).
      destruct (fdConn_no_socket h ip (Port rs) fd w)
        as (cr' & tc' & Hc' & _ & Hn & Hcur & Hl).
      assert (tc' = tc) as -> by congruence.
      exists cr, (socketEvents (destNetwork dest) ++ tc).
      split; [done|]. rewrite !calls_app, Hn, Hcur, Hl.
      rewrite !calls_socketEvents by done.
      do 3 (split; [done|]). by exists ip, tc.
    + rewrite Hf. exists (Fail err), (socketEvents (destNetwork dest)).
      split; [done|]. by rewrite !calls_socketEvents by done.
  - rewrite Hd. by exists (Fail err), [].
Qed.

Lemma Dial_other_destination_witness :
  exists (x : res Conn) (t : list event),
    Dial (Sample.host true None)
         {| destNetwork := Network_UDP; NetAddr := "dns.example:53" |}
         Sample.prepared
    = Ended (Done x) Sample.prepared (EvLookupAddr "dns.example:53" :: t)
    /\ calls isNextIP t = 0%nat.
Proof.
  destruct (Dial_other_destination (Sample.host true None)
              {| destNetwork := Network_UDP; NetAddr := "dns.example:53" |}
              Sample.prepared) as (x & t & Hrun & Hn & _).
  - discriminate.
  - exists x, t. split; [exact Hrun | exact Hn].
Defined.

(** One call of [Dial] to the prepared server, with the cursor inside
    the list. *)
Lemma Dial_prepared_step
    (h : Host) (dest : Destination) (w : world) (r : resolved) :
  NetAddr dest = currentServer (dialer w) ->
  vServer (dialer w) = Some r ->
  0 <= ipIdx r < len (IPs r) ->
  exists (x : res Conn) (r' : resolved) (t : list event),
    Dial h dest w = Ended (Done x) (withVServer r' w) t
    /\ IPs r' = IPs r
    /\ 0 <= ipIdx r' < len (IPs r').
Proof.
  intros Haddr Hv Hr. unfold Dial. rewrite Haddr, String.eqb_refl, Hv.
  unfold run. destruct (dialPrepared_run h dest w r Hv) as (x & _ & Hx).
  destruct x as [fd|err];
    [|rewrite Hx; exists (Fail err), r; eexists;
      by rewrite (withVServer_same w r Hv)].
  destruct (currentIP_in_range r Hr) as (ip & Hip & _). rewrite Hip in Hx.
  destruct Hx as (cr & tc & _ & Hd). destruct cr as [conn|err].
  - rewrite Hd. exists (Val conn), r. eexists.
    by rewrite (withVServer_same w r Hv).
  - destruct (NextIP_in_range (time_Now h) r Hr) as (r' & Hn & Hips & Hr').
    rewrite Hd, Hn. exists (Fail err), r'. by eexists.
Qed.

(** X14.  With the cursor of the stored endpoint inside its list, any
    number of calls of [Dial] to the prepared server, one after the other
    and whatever the system answers in each, end without a panic and are
    never parked; they change nothing in the dialer but the rotation
    state of the endpoint, whose address list stays as it is and whose
    cursor stays inside it. *)
Theorem dials_keep_cursor_in_range
    (hs : list Host) (dest : Destination) (w : world) (r : resolved) :
  NetAddr dest = currentServer (dialer w) ->
  vServer (dialer w) = Some r ->
  0 <= ipIdx r < len (IPs r) ->
  exists r' : resolved,
    dials hs dest w = Some (withVServer r' w)
    /\ IPs r' = IPs r
    /\ 0 <= ipIdx r' < len (IPs r').
Proof.
  revert w r. induction hs as [|h hs IH]; intros w r Haddr Hv Hr.
  - exists r. by rewrite (withVServer_same w r Hv).
  - cbn [dials].
    destruct (Dial_prepared_step h dest w r Haddr Hv Hr)
      as (x & r1 & t & -> & Hips & Hr1).
    destruct (IH (withVServer r1 w) r1) as (r' & Hrun & Hips' & Hr');
      [done | done | done |].
    exists r'. rewrite Hrun. split; [|split; [congruence | done]].
    by destruct w as [[] ?].
Qed.

Lemma dials_keep_cursor_in_range_witness :
  exists r' : resolved,
    dials [Sample.host false None; Sample.host true None;
           Sample.host true (Some (ErrExternal 111))]
          Sample.dest Sample.prepared
    = Some (withVServer r' Sample.prepared)
    /\ 0 <= ipIdx r' < len (IPs r').
Proof.
  destruct (dials_keep_cursor_in_range
              [Sample.host false None; Sample.host true None;
               Sample.host true (Some (ErrExternal 111))]
              Sample.dest Sample.prepared Sample.pair)
    as (r' & Hrun & _ & Hr').
  - reflexivity.
  - reflexivity.
  - vm_compute. split; discriminate || reflexivity.
  - exists r'. split; [exact Hrun | exact Hr'].
Defined.

(** X15.  A failed connection to the prepared server moves on to the
    next address: when [fdConn] fails on a list of 2 to 255 addresses,
    [Dial] returns that error and, 5 seconds or more after the last
    switch, leaves the cursor on the next index, 0 after the last one, so
    that the next [Dial] connects to the next address; sooner than that
    it leaves the endpoint as it is, and the next [Dial] tries the same
    address again. *)
Theorem Dial_failure_moves_on
    (h : Host) (dest : Destination) (w : world) (r : resolved)
    (fd : Z) (ip : IP) (err : error) (tc : list event) :
  NetAddr dest = currentServer (dialer w) ->
  vServer (dialer w) = Some r ->
  2 <= len (IPs r) < 256 ->
  0 <= ipIdx r < len (IPs r) ->
  getFd h (destNetwork dest) w
  = (Done (Val fd), w, socketEvents (destNetwork dest)) ->
  currentIP r = Done ip ->
  fdConn h ip (Port r) fd w = (Done (Fail err), w, tc) ->
  exists r' : resolved,
    Dial h dest w
    = Ended (Done (Fail err)) (withVServer r' w)
            (socketEvents (destNetwork dest)
             ++ EvCurrentIP :: tc ++ [EvNextIP])
    /\ r' = (if time_Now h - lastSwitched r <? Second * 5 then r
             else set_switch r ((ipIdx r + 1) mod len (IPs r)) (time_Now h))
    /\ currentIP r' = index (IPs r) (ipIdx r').
Proof.
  intros Haddr Hv Hlen Hr Hfd Hip Hc.
  unfold Dial. rewrite Haddr, String.eqb_refl, Hv. unfold run.
  destruct (dialPrepared_run h dest w r Hv) as (x & Hfd' & Hx).
  assert (x = Val fd) as -> by congruence. rewrite Hip in Hx.
  destruct Hx as (cr & tc' & Hc' & Hd).
  assert (cr = Fail err /\ tc' = tc) as [-> ->] by (split; congruence).
  rewrite Hd.
  assert (Hcur : forall i t, currentIP (set_switch r i t)
                             = index (IPs r) (ipIdx (set_switch r i t))).
  { intros i t. unfold currentIP. cbn [IPs ipIdx set_switch].
    destruct (Z.ltb_spec 0 (len (IPs r))); [done | lia]. }
  destruct (Z.ltb_spec (time_Now h - lastSwitched r) (Second * 5)) as [Hg|Hg].
  - rewrite NextIP_noop by (by right). exists r. split; [done|]. split; [done|].
    unfold currentIP. destruct (Z.ltb_spec 0 (len (IPs r))); [done | lia].
  - rewrite NextIP_switch by lia. eexists. split; [reflexivity|].
    assert (Hnext : (if uint8 (len (IPs r)) <=? uint8 (ipIdx r + 1)
                     then 0 else uint8 (ipIdx r + 1))
                    = (ipIdx r + 1) mod len (IPs r)).
    { unfold uint8. rewrite !Z.mod_small by lia.
      destruct (Z.leb_spec (len (IPs r)) (ipIdx r + 1)).
      - replace (ipIdx r + 1) with (len (IPs r)) by lia.
        by rewrite Z_mod_same_full.
      - by rewrite Z.mod_small by lia. }
    rewrite Hnext. split; [done|]. apply Hcur.
Qed.

Lemma Dial_failure_moves_on_witness :
  exists r' : resolved,
    Dial (Sample.host true (Some (ErrExternal 111))) Sample.dest Sample.prepared
    = Ended (Done (Fail (ErrExternal 111))) (withVServer r' Sample.prepared)
            (socketEvents Network_TCP
             ++ EvCurrentIP
                :: [EvProtect 7; EvConnect 7 (sockaddrOf Sample.ip4_1 443);
                    EvClose 7]
                ++ [EvNextIP])
    /\ currentIP r' = Done Sample.ip6_1.
Proof.
  destruct (Dial_failure_moves_on
              (Sample.host true (Some (ErrExternal 111))) Sample.dest
              Sample.prepared Sample.pair 7 Sample.ip4_1 (ErrExternal 111)
              [EvProtect 7; EvConnect 7 (sockaddrOf Sample.ip4_1 443);
               EvClose 7])
    as (r' & Hrun & Hr' & _); try reflexivity.
  - vm_compute. split; discriminate || reflexivity.
  - vm_compute. split; discriminate || reflexivity.
  - exists r'. split; [exact Hrun|]. rewrite Hr'. reflexivity.
Defined.

(** X16.  [Dial] is parked exactly when the destination is the prepared
    server and [IsVServerReady] answers false, and it is then parked on
    the channel that [ResolveChan] returns; in every other case it ends
    without waiting. *)
Theorem Dial_parks_iff_not_ready
    (h : Host) (dest : Destination) (w : world) :
  ((exists (c : option chan) (k : M (res Conn)), Dial h dest w = Parked c k)
   <-> (NetAddr dest = currentServer (dialer w)
        /\ IsVServerReady (dialer w) = false))
  /\ (forall (c : option chan) (k : M (res Conn)),
        Dial h dest w = Parked c k -> c = ResolveChan (dialer w))
  /\ (IsVServerReady (dialer w) = true ->
      exists o w' t, Dial h dest w = Ended o w' t).
Proof.
  unfold Dial, IsVServerReady, ResolveChan, run.
  destruct (String.eqb_spec (NetAddr dest) (currentServer (dialer w)))
    as [Heq|Hne].
  - destruct (vServer (dialer w)) as [r|].
    + destruct (dialPrepared h dest w) as [[o w'] t].
      split; [split; [by intros (? & ? & [=]) | by intros [_ [=]]]|].
      split; [by intros ? ? [=] | by eexists _, _, _].
    + split; [split; [done | by eexists _, _]|].
      split; [by intros ? ? [= <- _] | done].
  - destruct (dialFresh h dest w) as [[o w'] t].
    split; [split; [by intros (? & ? & [=]) | by intros [? _]]|].
    split; [by intros ? ? [=] | by eexists _, _, _].
Qed.

Lemma Dial_parks_iff_not_ready_witness :
  (exists (c : option chan) (k : M (res Conn)),
      Dial (Sample.host true None) Sample.dest Sample.pending = Parked c k)
  /\ exists o w' t,
       Dial (Sample.host true None) Sample.dest Sample.prepared = Ended o w' t.
Proof.
  split.
  - apply (Dial_parks_iff_not_ready (Sample.host true None) Sample.dest
             Sample.pending). split; reflexivity.
  - apply (Dial_parks_iff_not_ready (Sample.host true None) Sample.dest
             Sample.prepared). reflexivity.
Defined.

(** ** Preparation, round by round *)

Section PrepareRounds.

Variables (net : nat -> Resolver) (closeCh : nat -> bool).
Variable domainName : string.

(** Rounds whose lookup fails while the cancel signal is silent change
    nothing; the loop goes on after them with as many rounds less. *)
Lemma prepareLoop_failed_rounds (k : nat) : forall (m n : nat) (w : world),
  (forall j, (j < k)%nat -> exists e,
      lookupAddr (net (n + j)) (preferIPv6 (dialer w)) domainName
      = Done (Fail e)) ->
  (forall j, (j < k)%nat -> closeCh (n + j) = false) ->
  prepareLoop net closeCh domainName (k + m) n w
  = match prepareLoop net closeCh domainName m (n + k) w with
    | (o, w', t) =>
        (o, w', concat (replicate k [EvLookupAddr domainName; EvAfter]) ++ t)
    end.
Proof.
  induction k as [|k IH]; intros m n w Hfail Hquiet.
  - rewrite Nat.add_0_r. cbn. by destruct (prepareLoop _ _ _ _ _ _) as [[? ?] ?].
  - cbn [Nat.add prepareLoop]. run_M.
    destruct (Hfail 0%nat ltac:(lia)) as (e & He).
    rewrite Nat.add_0_r in He. rewrite He.
    pose proof (Hquiet 0%nat ltac:(lia)) as Hq.
    rewrite Nat.add_0_r in Hq. rewrite Hq.
    rewrite (IH m (S n) w).
    + replace (S n + k)%nat with (n + S k)%nat by lia.
      by destruct (prepareLoop _ _ _ _ _ _) as [[[] ?] ?].
    + intros j Hj. replace (S n + j)%nat with (n + S j)%nat by lia.
      apply Hfail. lia.
    + intros j Hj. replace (S n + j)%nat with (n + S j)%nat by lia.
      apply Hquiet. lia.
Qed.

(** A round whose lookup answers stores the endpoint and ends the
    loop. *)
Lemma prepareLoop_answer (m n : nat) (w : world) (rs : resolved) :
  lookupAddr (net n) (preferIPv6 (dialer w)) domainName = Done (Val rs) ->
  prepareLoop net closeCh domainName (S m) n w
  = (Done tt, withVServer rs w,
     [EvLookupAddr domainName; EvSetVServer rs]).
Proof. intros Hrs. cbn [prepareLoop]. run_M. by rewrite Hrs. Qed.

(** A round whose lookup fails with the cancel signal fired ends the
    loop with nothing stored. *)
Lemma prepareLoop_cancel (m n : nat) (w : world) (e : error) :
  lookupAddr (net n) (preferIPv6 (dialer w)) domainName = Done (Fail e) ->
  closeCh n = true ->
  prepareLoop net closeCh domainName (S m) n w
  = (Done tt, w, [EvLookupAddr domainName; EvCloseCh]).
Proof. intros He Hc. cbn [prepareLoop]. run_M. by rewrite He, Hc. Qed.

(** The loop begins with a lookup, makes no more than [maxRetry] of
    them, and changes nothing in the dialer but [d.vServer]. *)
Lemma prepareLoop_frame (maxRetry : nat) : forall (n : nat) (w : world),
  exists (w' : world) (t : list event),
    prepareLoop net closeCh domainName (S maxRetry) n w
    = (Done tt, w', EvLookupAddr domainName :: t)
    /\ chans w' = chans w
    /\ currentServer (dialer w') = currentServer (dialer w)
    /\ preferIPv6 (dialer w') = preferIPv6 (dialer w)
    /\ resolveChan (dialer w') = resolveChan (dialer w)
    /\ vServer (dialer w') = stored t (vServer (dialer w))
    /\ (calls isLookupAddr t <= maxRetry)%nat
    /\ calls isCloseChan t = 0%nat.
Proof.
  induction maxRetry as [|m IH]; intros n w.
  - cbn [prepareLoop]. run_M.
    destruct (lookupAddr_returns (net n) (preferIPv6 (dialer w)) domainName)
      as (x & -> & _).
    destruct x as [rs|err]; [by eexists _, _|].
    destruct (closeCh n); by eexists _, _.
  - cbn [prepareLoop]. run_M.
    destruct (lookupAddr_returns (net n) (preferIPv6 (dialer w)) domainName)
      as (x & -> & _).
    destruct x as [rs|err]; [eexists _, _; split; [reflexivity|]; cbn;
                             repeat split; lia|].
    destruct (closeCh n);
      [eexists _, _; split; [reflexivity|]; cbn; repeat split; lia|].
    destruct (IH (S n) w) as (w' & t & Hrun & Hc & Hs & Hp & Hr & Hv & Hl & Hcl).
    cbn [prepareLoop] in Hrun. revert Hrun. run_M. intros ->.
    eexists _, _. split; [reflexivity|].
    cbn [stored]. rewrite !calls_cons. cbn [isLookupAddr isCloseChan].
    repeat split; (done || lia).
Qed.

End PrepareRounds.

(** [PrepareDomain] is the loop of 10 rounds on the dialer with the
    server and the preference recorded, followed by the close of the
    channel that was in [d.resolveChan] at the start. *)
Lemma PrepareDomain_run
    (net : nat -> Resolver) (closeCh : nat -> bool)
    (domainName : string) (prefIPv6 : bool) (w : world) :
  PrepareDomain net closeCh domainName prefIPv6 w
  = defer (closeChan (resolveChan (dialer w)))
          (prepareLoop net closeCh domainName 10 0)
          {| dialer := setPreferIPv6 prefIPv6
                         (setCurrentServer domainName (dialer w));
             chans := chans w |}.
Proof.
  unfold PrepareDomain. run_M. unfold defer.
  cbn [dialer resolveChan setPreferIPv6 setCurrentServer].
  destruct (prepareLoop _ _ _ _ _ _) as [[o w'] t].
  by destruct (closeChan _ _) as [[[] ?] ?].
Qed.

(** X17.  When the lookups of the first [k] rounds fail, [k] below 10,
    with the cancel signal silent, and the next lookup answers,
    [PrepareDomain] has made [k + 1] lookups, with the new preference,
    and [k] waits of 2 seconds; it stores that answer, closes the
    readiness channel after the store, and leaves the dialer with the
    server name, the preference and the endpoint recorded. *)
Theorem PrepareDomain_stores_first_answer
    (net : nat -> Resolver) (closeCh : nat -> bool)
    (domainName : string) (prefIPv6 : bool) (w : world) (c : chan)
    (k : nat) (rs : resolved) :
  resolveChan (dialer w) = Some c ->
  chans w !! c = Some false ->
  (k < 10)%nat ->
  (forall j, (j < k)%nat -> exists e,
      lookupAddr (net j) prefIPv6 domainName = Done (Fail e)) ->
  (forall j, (j < k)%nat -> closeCh j = false) ->
  lookupAddr (net k) prefIPv6 domainName = Done (Val rs) ->
  PrepareDomain net closeCh domainName prefIPv6 w
  = (Done tt,
     {| dialer := {| currentServer := domainName; resolveChan := Some c;
                     preferIPv6 := prefIPv6; vServer := Some rs |};
        chans := <[c := true]> (chans w) |},
     concat (replicate k [EvLookupAddr domainName; EvAfter])
     ++ [EvLookupAddr domainName; EvSetVServer rs; EvCloseChan (Some c)]).
Proof.
  intros Hc Hopen Hk Hfail Hquiet Hrs. rewrite PrepareDomain_run.
  unfold defer.
  replace 10%nat with (k + S (9 - k))%nat by lia.
  rewrite prepareLoop_failed_rounds by done.
  rewrite (prepareLoop_answer net closeCh domainName (9 - k) (0 + k) _ rs)
    by done.
  rewrite Hc. unfold closeChan. cbn [chans withVServer]. rewrite Hopen.
  unfold withVServer, setVServer, setPreferIPv6, setCurrentServer.
  cbn [dialer currentServer resolveChan preferIPv6 vServer].
  rewrite Hc. by rewrite <- !app_assoc.
Qed.

Lemma PrepareDomain_stores_first_answer_witness :
  PrepareDomain Sample.flaky Sample.quiet Sample.server false Sample.pending
  = (Done tt, Sample.prepared,
     [EvLookupAddr Sample.server; EvAfter; EvLookupAddr Sample.server; EvAfter;
      EvLookupAddr Sample.server; EvSetVServer Sample.pair;
      EvCloseChan (Some 0%nat)]).
Proof.
  rewrite (PrepareDomain_stores_first_answer
             Sample.flaky Sample.quiet Sample.server false Sample.pending
             0%nat 2 Sample.pair).
  - vm_compute. reflexivity.
  - reflexivity.
  - vm_compute. reflexivity.
  - lia.
  - intros j Hj. exists (ErrExternal 1).
    destruct j as [|[|j]]; [reflexivity | reflexivity | lia].
  - reflexivity.
  - reflexivity.
Defined.

(** X18.  When the cancel signal fires in round [k], [k] below 10, after
    lookups that have all failed, [PrepareDomain] returns at once: it
    makes no further lookup, stores nothing, leaves [d.vServer] as it
    was, and still closes the readiness channel. *)
Theorem PrepareDomain_cancelled
    (net : nat -> Resolver) (closeCh : nat -> bool)
    (domainName : string) (prefIPv6 : bool) (w : world) (c : chan)
    (k : nat) :
  resolveChan (dialer w) = Some c ->
  chans w !! c = Some false ->
  (k < 10)%nat ->
  (forall j, (j <= k)%nat -> exists e,
      lookupAddr (net j) prefIPv6 domainName = Done (Fail e)) ->
  (forall j, (j < k)%nat -> closeCh j = false) ->
  closeCh k = true ->
  PrepareDomain net closeCh domainName prefIPv6 w
  = (Done tt,
     {| dialer := {| currentServer := domainName; resolveChan := Some c;
                     preferIPv6 := prefIPv6; vServer := vServer (dialer w) |};
        chans := <[c := true]> (chans w) |},
     concat (replicate k [EvLookupAddr domainName; EvAfter])
     ++ [EvLookupAddr domainName; EvCloseCh; EvCloseChan (Some c)]).
Proof.
  intros Hc Hopen Hk Hfail Hquiet Hfire. rewrite PrepareDomain_run.
  unfold defer.
  replace 10%nat with (k + S (9 - k))%nat by lia.
  rewrite prepareLoop_failed_rounds
    by (done || (intros j Hj; apply Hfail; cbn; lia)).
  destruct (Hfail k ltac:(lia)) as (e & He).
  rewrite (prepareLoop_cancel net closeCh domainName (9 - k) (0 + k) _ e)
    by done.
  rewrite Hc. unfold closeChan. cbn [chans]. rewrite Hopen.
  unfold setPreferIPv6, setCurrentServer.
  cbn [dialer currentServer resolveChan preferIPv6 vServer].
  rewrite Hc. by rewrite <- !app_assoc.
Qed.

Lemma PrepareDomain_cancelled_witness :
  PrepareDomain Sample.dead (fun n => (0 <? n)%nat) Sample.server false
                Sample.pending
  = (Done tt, Sample.gaveUp,
     [EvLookupAddr Sample.server; EvAfter;
      EvLookupAddr Sample.server; EvCloseCh; EvCloseChan (Some 0%nat)]).
Proof.
  rewrite (PrepareDomain_cancelled
             Sample.dead (fun n => (0 <? n)%nat) Sample.server false
             Sample.pending 0%nat 1).
  - vm_compute. reflexivity.
  - reflexivity.
  - vm_compute. reflexivity.
  - lia.
  - intros j Hj. exists (ErrExternal 1). reflexivity.
  - intros j Hj. destruct j; [reflexivity | lia].
  - reflexivity.
Defined.

(** X19.  Whatever state the dialer is in and whatever happens,
    [PrepareDomain] begins with a lookup, also when the cancel signal has
    fired before: the signal is looked at only after a failed lookup.  It
    makes between 1 and 10 lookups, records the server name and the
    preference, and its last step is the close of the channel that was in
    [d.resolveChan] at the start. *)
Theorem PrepareDomain_lookup_first
    (net : nat -> Resolver) (closeCh : nat -> bool)
    (domainName : string) (prefIPv6 : bool) (w : world) :
  exists (o : outcome unit) (w' : world) (t : list event),
    PrepareDomain net closeCh domainName prefIPv6 w
    = (o, w', EvLookupAddr domainName :: t
              ++ [EvCloseChan (resolveChan (dialer w))])
    /\ (calls isLookupAddr t <= 9)%nat
    /\ calls isCloseChan t = 0%nat
    /\ currentServer (dialer w') = domainName
    /\ preferIPv6 (dialer w') = prefIPv6
    /\ resolveChan (dialer w') = resolveChan (dialer w)
    /\ vServer (dialer w') = stored t (vServer (dialer w)).
Proof.
  rewrite PrepareDomain_run. unfold defer.
  set (w1 := {| dialer := _; chans := chans w |}).
  destruct (prepareLoop_frame net closeCh domainName 9 0%nat w1)
    as (w' & t & -> & Hch & Hs & Hp & Hr & Hv & Hl & Hcl).
  unfold closeChan.
  destruct (resolveChan (dialer w)) as [c|] eqn:Hc;
    [destruct (chans w' !! c) as [[|]|]|];
    eexists _, _, t; (split; [reflexivity|]); cbn [dialer chans];
    by rewrite ?Hs, ?Hp, ?Hr, ?Hv.
Qed.

(** X20.  Without a readiness channel that is open, one that
    [PrepareResolveChan] has made and no earlier run has closed,
    [PrepareDomain] panics in its deferred close, and only there: the
    lookups have been made and an answer has been stored by then.  So it
    is with a dialer as [NewPreotectedDialer] returns it, and with a
    second [PrepareDomain] on the same channel. *)
Theorem PrepareDomain_without_open_channel
    (net : nat -> Resolver) (closeCh : nat -> bool)
    (domainName : string) (prefIPv6 : bool) (w : world) :
  closed w (resolveChan (dialer w)) = true
  \/ resolveChan (dialer w) = None ->
  exists (w' : world) (t : list event),
    PrepareDomain net closeCh domainName prefIPv6 w
    = (Panicked, w', EvLookupAddr domainName :: t
                     ++ [EvCloseChan (resolveChan (dialer w))])
    /\ calls isCloseChan t = 0%nat
    /\ chans w' = chans w
    /\ vServer (dialer w') = stored t (vServer (dialer w)).
Proof.
  intros Hbad. rewrite PrepareDomain_run. unfold defer.
  set (w1 := {| dialer := _; chans := chans w |}).
  destruct (prepareLoop_frame net closeCh domainName 9 0%nat w1)
    as (w' & t & -> & Hch & Hs & Hp & Hr & Hv & Hl & Hcl).
  unfold closeChan.
  destruct (resolveChan (dialer w)) as [c|] eqn:Hc.
  - destruct Hbad as [Hbad|[=]]. cbn [closed] in Hbad.
    rewrite Hch. cbn [chans w1].
    destruct (chans w !! c) as [[|]|]; [|done|done].
    by eexists _, t.
  - by eexists _, t.
Qed.

Lemma PrepareDomain_without_open_channel_witness :
  exists (w' : world) (t : list event),
    PrepareDomain Sample.flaky Sample.quiet Sample.server false Sample.gaveUp
    = (Panicked, w', EvLookupAddr Sample.server :: t
                     ++ [EvCloseChan (Some 0%nat)])
    /\ vServer (dialer w') = stored t None.
Proof.
  destruct (PrepareDomain_without_open_channel
              Sample.flaky Sample.quiet Sample.server false Sample.gaveUp)
    as (w' & t & Hrun & _ & _ & Hv).
  - left. vm_compute. reflexivity.
  - exists w', t. split; [exact Hrun | exact Hv].
Defined.

(** ** Preparation cycles and the calls that wait for them *)

(** [PrepareResolveChan] puts a channel that did not exist, open, in
    [d.resolveChan], and touches nothing else. *)
Lemma PrepareResolveChan_run (w : world) :
  PrepareResolveChan w
  = (Done tt,
     {| dialer := setResolveChan (Some (fresh (dom (chans w)))) (dialer w);
        chans := <[fresh (dom (chans w)) := false]> (chans w) |},
     []).
Proof. reflexivity. Qed.

Lemma fresh_chan_new (w : world) : chans w !! fresh (dom (chans w)) = None.
Proof. apply not_elem_of_dom, is_fresh. Qed.

(** A full cycle, from any state of the dialer. *)
Lemma prepareCycle_run
    (net : nat -> Resolver) (closeCh : nat -> bool)
    (domainName : string) (prefIPv6 : bool) (w : world) :
  exists (w' : world) (t : list event),
    prepareCycle net closeCh domainName prefIPv6 w
    = (Done tt, w',
       EvLookupAddr domainName :: t
       ++ [EvCloseChan (Some (fresh (dom (chans w))))])
    /\ calls isCloseChan t = 0%nat
    /\ (calls isLookupAddr t <= 9)%nat
    /\ resolveChan (dialer w') = Some (fresh (dom (chans w)))
    /\ chans w'
       = <[fresh (dom (chans w)) := true]>
           (<[fresh (dom (chans w)) := false]> (chans w))
    /\ vServer (dialer w') = stored t (vServer (dialer w)).
Proof.
  unfold prepareCycle. rewrite run_bind, PrepareResolveChan_run.
  set (c := fresh (dom (chans w))).
  set (w0 := {| dialer := setResolveChan (Some c) (dialer w);
                chans := <[c := false]> (chans w) |}).
  rewrite PrepareDomain_run. unfold defer.
  set (w1 := {| dialer := _; chans := chans w0 |}).
  destruct (prepareLoop_frame net closeCh domainName 9 0%nat w1)
    as (w' & t & -> & Hch & Hs & Hp & Hr & Hv & Hl & Hcl).
  cbn [dialer w0 resolveChan setResolveChan]. unfold closeChan.
  rewrite Hch. cbn [chans w1 w0]. rewrite lookup_insert_eq.
  eexists _, t. split; [reflexivity|]. cbn [dialer chans].
  by rewrite Hr, Hv.
Qed.

(** X21.  A preparation cycle, [PrepareResolveChan] followed by
    [PrepareDomain], can be run on the dialer in any state, a new one or
    one that earlier cycles have used: it never panics; it makes a
    channel that did not exist before, closes it, and closes no other;
    every other channel is as it was. *)
Theorem prepareCycle_never_panics
    (net : nat -> Resolver) (closeCh : nat -> bool)
    (domainName : string) (prefIPv6 : bool) (w : world) :
  exists (w' : world) (t : list event) (c : chan),
    prepareCycle net closeCh domainName prefIPv6 w = (Done tt, w', t)
    /\ chans w !! c = None
    /\ ResolveChan (dialer w') = Some c
    /\ closed w' (Some c) = true
    /\ List.filter isCloseChan t = [EvCloseChan (Some c)]
    /\ forall c0 : chan, c0 <> c -> chans w' !! c0 = chans w !! c0.
Proof.
  destruct (prepareCycle_run net closeCh domainName prefIPv6 w)
    as (w' & t & Hrun & Hcl & _ & Hr & Hch & _).
  eexists w', _, (fresh (dom (chans w))). split; [exact Hrun|].
  split; [apply fresh_chan_new|]. split; [done|].
  split; [cbn; by rewrite Hch, lookup_insert_eq|]. split.
  - cbn [List.filter isLookupAddr isCloseChan].
    rewrite List.filter_app. cbn.
    unfold calls in Hcl. apply length_zero_iff_nil in Hcl. by rewrite Hcl.
  - intros c0 Hne. rewrite Hch. by rewrite !lookup_insert_ne.
Qed.

(** X22.  A call of [Dial] that is parked on a readiness channel is not
    resumed by a preparation cycle begun after it: [PrepareResolveChan]
    replaces the channel in [d.resolveChan], [PrepareDomain] closes the
    new one, and the channel the call waits on stays open. *)
Theorem Dial_parked_misses_next_cycle
    (h : Host) (dest : Destination) (w : world) (c0 : chan)
    (net : nat -> Resolver) (closeCh : nat -> bool)
    (domainName : string) (prefIPv6 : bool) :
  NetAddr dest = currentServer (dialer w) ->
  vServer (dialer w) = None ->
  resolveChan (dialer w) = Some c0 ->
  chans w !! c0 = Some false ->
  exists (w' : world) (t : list event),
    prepareCycle net closeCh domainName prefIPv6 w = (Done tt, w', t)
    /\ (exists k, Dial h dest w = Parked (Some c0) k)
    /\ closed w' (ResolveChan (dialer w')) = true
    /\ wake (Dial h dest w) w' = None.
Proof.
  intros Haddr Hv Hc Hopen.
  destruct (prepareCycle_run net closeCh domainName prefIPv6 w)
    as (w' & t & Hrun & _ & _ & Hr & Hch & _).
  eexists w', _. split; [exact Hrun|].
  assert (Hne : c0 <> fresh (dom (chans w))).
  { intros ->. rewrite fresh_chan_new in Hopen. discriminate. }
  unfold Dial, ResolveChan. rewrite Haddr, String.eqb_refl, Hv, Hc, Hr.
  split; [by eexists|]. split.
  - cbn. by rewrite Hch, lookup_insert_eq.
  - cbn [wake closed]. rewrite Hch, !lookup_insert_ne by done.
    by rewrite Hopen.
Qed.

Lemma Dial_parked_misses_next_cycle_witness :
  exists (w' : world) (t : list event),
    prepareCycle Sample.flaky Sample.quiet Sample.server false Sample.pending
    = (Done tt, w', t)
    /\ wake (Dial (Sample.host true None) Sample.dest Sample.pending) w' = None.
Proof.
  destruct (Dial_parked_misses_next_cycle
              (Sample.host true None) Sample.dest Sample.pending 0%nat
              Sample.flaky Sample.quiet Sample.server false)
    as (w' & t & Hrun & _ & _ & Hwake).
  - reflexivity.
  - reflexivity.
  - reflexivity.
  - vm_compute. reflexivity.
  - exists w', t. split; [exact Hrun | exact Hwake].
Defined.

(** The loop of [PrepareDomain] up to the first answer. *)
Lemma prepareLoop_first_answer
    (net : nat -> Resolver) (closeCh : nat -> bool) (domainName : string)
    (w : world) (k : nat) (rs : resolved) :
  (k < 10)%nat ->
  (forall j, (j < k)%nat -> exists e,
      lookupAddr (net j) (preferIPv6 (dialer w)) domainName = Done (Fail e)) ->
  (forall j, (j < k)%nat -> closeCh j = false) ->
  lookupAddr (net k) (preferIPv6 (dialer w)) domainName = Done (Val rs) ->
  prepareLoop net closeCh domainName 10 0 w
  = (Done tt, withVServer rs w,
     concat (replicate k [EvLookupAddr domainName; EvAfter])
     ++ [EvLookupAddr domainName; EvSetVServer rs]).
Proof.
  intros Hk Hfail Hquiet Hrs.
  replace 10%nat with (k + S (9 - k))%nat by lia.
  rewrite prepareLoop_failed_rounds by done.
  by rewrite (prepareLoop_answer net closeCh domainName (9 - k) (0 + k) _ rs).
Qed.

(** X23.  From preparation to connection: a call of [Dial] to the server
    under preparation, made while no endpoint is stored, waits while the
    readiness channel is open; when [PrepareDomain] has stored an answer
    and closed the channel, the call goes on exactly as a call of [Dial]
    made afterwards, and the address it connects to is the first one of
    the stored list. *)
Theorem Dial_resumes_after_preparation
    (h : Host) (dest : Destination) (wd w : world) (c : chan)
    (net : nat -> Resolver) (closeCh : nat -> bool) (prefIPv6 : bool)
    (k : nat) (rs : resolved) :
  NetAddr dest = currentServer (dialer wd) ->
  vServer (dialer wd) = None ->
  resolveChan (dialer wd) = Some c ->
  resolveChan (dialer w) = Some c ->
  chans w !! c = Some false ->
  (k < 10)%nat ->
  (forall j, (j < k)%nat -> exists e,
      lookupAddr (net j) prefIPv6 (NetAddr dest) = Done (Fail e)) ->
  (forall j, (j < k)%nat -> closeCh j = false) ->
  lookupAddr (net k) prefIPv6 (NetAddr dest) = Done (Val rs) ->
  exists (w' : world) (t : list event) (ip : IP),
    PrepareDomain net closeCh (NetAddr dest) prefIPv6 w = (Done tt, w', t)
    /\ wake (Dial h dest wd) w = None
    /\ wake (Dial h dest wd) w' = Some (Dial h dest w')
    /\ vServer (dialer w') = Some rs
    /\ head (IPs rs) = Some ip
    /\ exists (x : res Z),
         getFd h (destNetwork dest) w'
         = (Done x, w', socketEvents (destNetwork dest))
         /\ forall fd, x = Val fd ->
              exists (cr : res Conn) (tc : list event) (w'' : world)
                     (t' : list event),
                fdConn h ip (Port rs) fd w' = (Done cr, w', tc)
                /\ Dial h dest w'
                   = Ended (Done cr) w''
                           (socketEvents (destNetwork dest)
                            ++ EvCurrentIP :: tc ++ t').
Proof.
  intros Haddr Hv Hcd Hc Hopen Hk Hfail Hquiet Hrs.
  destruct (lookupAddr_first _ _ _ rs Hrs) as (ip & _ & Hhead & Hcur).
  assert (Hrun : PrepareDomain net closeCh (NetAddr dest) prefIPv6 w
                 = (Done tt,
                    {| dialer := {| currentServer := NetAddr dest;
                                    resolveChan := Some c;
                                    preferIPv6 := prefIPv6;
                                    vServer := Some rs |};
                       chans := <[c := true]> (chans w) |},
                    (concat (replicate k [EvLookupAddr (NetAddr dest); EvAfter])
                     ++ [EvLookupAddr (NetAddr dest); EvSetVServer rs])
                    ++ [EvCloseChan (Some c)])).
  { rewrite PrepareDomain_run. unfold defer.
    rewrite (prepareLoop_first_answer net closeCh (NetAddr dest) _ k rs)
      by done.
    rewrite Hc. unfold closeChan. cbn [chans withVServer]. rewrite Hopen.
    unfold withVServer, setVServer, setPreferIPv6, setCurrentServer.
    cbn [dialer currentServer resolveChan preferIPv6 vServer].
    by rewrite Hc. }
  eexists _, _, ip. split; [exact Hrun|]. clear Hrun.
  set (w' := {| dialer := _; chans := <[c := true]> (chans w) |}).
  assert (Hv' : vServer (dialer w') = Some rs) by done.
  assert (HD : Dial h dest w' = run (dialPrepared h dest) w').
  { unfold Dial. cbn [dialer currentServer w']. by rewrite String.eqb_refl. }
  split.
  { unfold Dial. rewrite Haddr, String.eqb_refl, Hv, Hcd. cbn.
    by rewrite Hopen. }
  split.
  { rewrite HD. unfold Dial. rewrite Haddr, String.eqb_refl, Hv, Hcd.
    cbn [wake closed chans w']. rewrite lookup_insert_eq.
    unfold run. rewrite run_bind. cbn [getDialer].
    cbn [dialer vServer w'].
    by destruct (dialPrepared h dest w') as [[? ?] ?]. }
  split; [done|]. split; [done|].
  destruct (dialPrepared_run h dest w' rs Hv') as (x & Hfd & Hx).
  exists x. split; [done|]. intros fd ->. rewrite Hcur in Hx.
  destruct Hx as (cr & tc & Hconn & Hd). rewrite HD. unfold run.
  exists cr, tc. destruct cr as [conn|err].
  - rewrite Hd. exists w', []. by rewrite app_nil_r.
  - rewrite Hd. destruct (currentIP_then_NextIP (time_Now h) rs ip Hcur)
      as (r' & ->).
    by eexists _, _.
Qed.

Lemma Dial_resumes_after_preparation_witness :
  exists (w' : world) (t : list event),
    PrepareDomain Sample.flaky Sample.quiet Sample.server false Sample.pending
    = (Done tt, w', t)
    /\ wake (Dial (Sample.host true None) Sample.dest Sample.pending) w'
       = Some (Dial (Sample.host true None) Sample.dest w')
    /\ vServer (dialer w') = Some Sample.pair.
Proof.
  destruct (Dial_resumes_after_preparation
              (Sample.host true None) Sample.dest Sample.pending Sample.pending
              0%nat Sample.flaky Sample.quiet false 2 Sample.pair)
    as (w' & t & ip & Hrun & _ & Hwake & Hv & _).
  - reflexivity.
  - reflexivity.
  - reflexivity.
  - reflexivity.
  - vm_compute. reflexivity.
  - lia.
  - intros j Hj. exists (ErrExternal 1).
    destruct j as [|[|j]]; [reflexivity | reflexivity | lia].
  - reflexivity.
  - reflexivity.
  - exists w', t. split; [exact Hrun|]. split; [exact Hwake | exact Hv].
Defined.
